(** * maimai: packet protocol, reaction handlers and presence debounce

    A shallow embedding of [handlers.go] and [packets.go].  Go strings are
    byte strings and are modelled by [string]; a panic is an explicit
    [Panic] result; the [Room] methods, which live in a file that is not
    part of the sources at hand, are modelled from the specification. *)

From Stdlib Require Import ZArith Ascii String List Lia.
From stdpp Require Import gmap strings list.

Open Scope string_scope.
Open Scope list_scope.
Open Scope Z_scope.

(** ** Go run-time conventions *)

(** A Go expression either yields a value or panics. *)
Inductive result (A : Type) : Type :=
| Ok (a : A)
| Panic (msg : string).
Arguments Ok {A} a.
Arguments Panic {A} msg.

(** [error] values that travel through the program. *)
Inductive error : Type :=
| ErrorsNew (msg : string)
| SyntaxError
| UnmarshalTypeError (value : string) (gotype : string)
| StorageError (msg : string)
| HTTPError (msg : string).

(** ** Fragments of package [strings] *)

(** [strings.Split(s, sep)] for a one-byte separator. *)
Fixpoint Split (s : string) (sep : ascii) : list string :=
  match s with
  | EmptyString => [EmptyString]
  | String c rest =>
      if Ascii.eqb c sep then EmptyString :: Split rest sep
      else match Split rest sep with
           | piece :: pieces => String c piece :: pieces
           | [] => [String c EmptyString]
           end
  end.

(** [strings.Replace(s, old, "", -1)] for a one-byte [old]. *)
Fixpoint RemoveAll (s : string) (old : ascii) : string :=
  match s with
  | EmptyString => EmptyString
  | String c rest =>
      if Ascii.eqb c old then RemoveAll rest old else String c (RemoveAll rest old)
  end.

(** [strings.HasPrefix]. *)
Definition HasPrefix (s pre : string) : bool := String.prefix pre s.

(** [s[i]]: indexing past the end panics. *)
Definition index (s : string) (i : nat) : result ascii :=
  match String.get i s with
  | Some c => Ok c
  | None => Panic "index out of range"
  end.

(** [s[lo:]]: a low bound past the end panics. *)
Definition sliceFrom (s : string) (lo : nat) : result string :=
  if (lo <=? String.length s)%nat
  then Ok (substring lo (String.length s - lo) s)
  else Panic "slice bounds out of range".

(** ** Command matchers ([handlers.go]) *)

(** [isValidPingCommand]: the slice [Content[0:5]] is guarded by the
    length test, so the function cannot panic. *)
Definition isValidPingCommand (content : string) : bool :=
  (5 <=? String.length content)%nat && String.eqb (substring 0 5 content) "!ping".

(** [isValidSeenCommand]: [&&] evaluates left to right and stops at the
    first false operand; the third operand reads [Content[6]]. *)
Definition isValidSeenCommand (content : string) : result bool :=
  if (5 <=? String.length content)%nat && String.eqb (substring 0 5 content) "!seen"
  then match index content 6 with
       | Panic msg => Panic msg
       | Ok c =>
           Ok (Ascii.eqb c "@"%char
               && (List.length (Split content " "%char) =? 2)%nat)
       end
  else Ok false.

(** ** Packet protocol data ([packets.go]) *)

Set Warnings "-register-all,-clear-no-such-hyp".

(** JSON texts, by their value.  [JNum] is an integer literal, [JFrac] a
    number literal with a fraction or an exponent. *)
Inductive json : Type :=
| JNull
| JBool (b : bool)
| JNum (z : Z)
| JFrac (literal : string)
| JStr (s : string)
| JArr (items : list json)
| JObj (members : list (string * json)).

(** [json.RawMessage]: [None] stands for bytes that are not a JSON text
    (among them the empty message of an omitted [data] member). *)
Definition RawMessage : Type := option json.

Definition PacketType : Type := string.

Module PacketEvent.
Record t : Type := mk
  { ID : string;
    Type_ : PacketType;
    Data : RawMessage;
    Error : string }.
End PacketEvent.

Module User.
Record t : Type := mk
  { ID : string;
    Name : string;
    ServerID : string;
    ServerEra : string }.
Definition zero : t := mk "" "" "" "".
End User.

Module Message.
Record t : Type := mk
  { ID : string;
    Parent : string;
    PreviousEditID : string;
    Time : Z;
    Sender : User.t;
    Content : string;
    EncryptionKeyID : string;
    Edited : Z;
    Deleted : Z }.
Definition zero : t := mk "" "" "" 0 User.zero "" "" 0 0.
End Message.

Module PingEvent.
Record t : Type := mk { Time : Z; Next : Z }.
Definition zero : t := mk 0 0.
End PingEvent.

Module PingReply.
Record t : Type := mk { UnixTime : Z }.
Definition zero : t := mk 0.
End PingReply.

Module SendCommand.
Record t : Type := mk { Content : string; Parent : string }.
Definition zero : t := mk "" "".
End SendCommand.

Module NickEvent.
Record t : Type := mk
  { SessionID : string;
    ID : string;
    From : string;
    To : string }.
Definition zero : t := mk "" "" "" "".
End NickEvent.

Module AuthCommand.
Record t : Type := mk { Type_ : string; Passcode : string }.
Definition zero : t := mk "" "".
End AuthCommand.

(** [PresenceEvent] embeds [*User]: the pointer is nil until a member of
    the embedded struct has been decoded. *)
Module PresenceEvent.
Record t : Type := mk { User_ : option User.t; SessionID : string }.
Definition zero : t := mk None "".
End PresenceEvent.

Module BounceEvent.
Record t : Type := mk
  { Reason : string;
    AuthOptions : list string;
    AgentID : string;
    IP : string }.
Definition zero : t := mk "" [] "" "".
End BounceEvent.

Module MsgLogEvent.
Record t : Type := mk
  { Parent : string;
    UserID : string;
    UserName : string;
    Time : Z;
    Content : string }.
End MsgLogEvent.

(** The named packet types. *)
Definition PingReplyType : PacketType := "ping-reply".
Definition PingEventType : PacketType := "ping-event".
Definition SendType : PacketType := "send".
Definition SendEventType : PacketType := "send-event".
Definition SendReplyType : PacketType := "send-reply".
Definition NickType : PacketType := "nick".
Definition NickReplyType : PacketType := "nick-reply".
Definition NickEventType : PacketType := "nick-event".
Definition JoinEventType : PacketType := "join-event".
Definition PartEventType : PacketType := "part-event".
Definition AuthType : PacketType := "auth".
Definition BounceEventType : PacketType := "bounce-event".

(** The dynamic value held by the [interface{}] that [Payload] returns:
    a pointer to one of the payload structs, the raw message, or nil. *)
Inductive payload : Type :=
| PPingEvent (v : PingEvent.t)
| PMessage (v : Message.t)
| PSendCommand (v : SendCommand.t)
| PNickEvent (v : NickEvent.t)
| PPresenceEvent (v : PresenceEvent.t)
| PPingReply (v : PingReply.t)
| PAuthCommand (v : AuthCommand.t)
| PBounceEvent (v : BounceEvent.t)
| PRaw (v : RawMessage)
| PNil.

(** ** Library and network behaviour the handlers are parametric in *)

(** HTML tokens as [extractTitleFromTree] looks at them. *)
Inductive token : Type :=
| ErrorToken
| TextToken (text : string)
| StartTagToken (name : string)
| OtherToken.

Record Env : Type := mkEnv
  { (* encoding/json: case-folding comparison of a field name and a key *)
    equalFold : string -> string -> bool;
    (* strings.TrimSpace *)
    TrimSpace : string -> string;
    (* linkMatcher.FindAllString(s, -1) *)
    FindAllString : string -> list string;
    (* http.Get: an error, or the status code and the tokens of the body *)
    httpGet : string -> error + (Z * list token);
    (* strconv.Atoi with its error dropped *)
    Atoi : string -> Z;
    (* fmt's %v of an int *)
    formatInt : Z -> string;
    (* int(d.Hours()) of a time.Duration in nanoseconds *)
    hoursOf : Z -> Z;
    (* time.Duration.String *)
    durationString : Z -> string }.

(** ASCII upper-casing, for a concrete key comparison. *)
Definition upper (c : ascii) : ascii :=
  let n := nat_of_ascii c in
  if ((97 <=? n) && (n <=? 122))%nat then ascii_of_nat (n - 32) else c.

Fixpoint asciiFold (a b : string) : bool :=
  match a, b with
  | EmptyString, EmptyString => true
  | String x a', String y b' => Ascii.eqb (upper x) (upper y) && asciiFold a' b'
  | _, _ => false
  end.

(** A concrete environment to run the model in. *)
Definition testEnv : Env :=
  {| equalFold := asciiFold;
     TrimSpace := fun s => s;
     FindAllString := fun _ => [];
     httpGet := fun _ => inl (HTTPError "no network");
     Atoi := fun _ => 0;
     formatInt := fun _ => "0";
     hoursOf := fun d => Z.quot d 3600000000000;
     durationString := fun _ => "0s" |}.

(** ** [encoding/json] decoding into the payload structs

    [json.Unmarshal] is library code; what follows is its behaviour on a
    JSON value and a struct of strings, integers, string slices and
    nested structs: members are visited in order, a key selects the field
    whose name it equals, or else the first field that matches it under
    case folding; a member of the wrong kind leaves its field alone and
    the first such error is reported at the end; [null] leaves a field
    alone. *)

Definition jsonKind (v : json) : string :=
  match v with
  | JNull => "null"
  | JBool _ => "bool"
  | JNum _ | JFrac _ => "number"
  | JStr _ => "string"
  | JArr _ => "array"
  | JObj _ => "object"
  end.

Definition inInt64 (z : Z) : bool := (- 2 ^ 63 <=? z) && (z <? 2 ^ 63).

Definition firstError (e1 e2 : option error) : option error :=
  match e1 with
  | Some _ => e1
  | None => e2
  end.

Definition storeString (old : string) (v : json) : string * option error :=
  match v with
  | JStr s => (s, None)
  | JNull => (old, None)
  | _ => (old, Some (UnmarshalTypeError (jsonKind v) "string"))
  end.

Definition storeInt64 (old : Z) (v : json) : Z * option error :=
  match v with
  | JNum z =>
      if inInt64 z then (z, None)
      else (old, Some (UnmarshalTypeError "number" "int64"))
  | JNull => (old, None)
  | _ => (old, Some (UnmarshalTypeError (jsonKind v) "int64"))
  end.

Definition storeStrings (old : list string) (v : json)
  : list string * option error :=
  match v with
  | JArr items =>
      fold_left
        (fun acc item =>
           let '(s, e) := storeString "" item in
           (fst acc ++ [s], firstError (snd acc) e))
        items ([], None)
  | JNull => ([], None)
  | _ => (old, Some (UnmarshalTypeError (jsonKind v) "[]string"))
  end.

Section Maimai.

Variable env : Env.

(** The field a key selects, among the JSON names of a struct's fields
    in declaration order. *)
Definition fieldFor (names : list string) (key : string) : option string :=
  match find (String.eqb key) names with
  | Some name => Some name
  | None => find (fun name => equalFold env name key) names
  end.

Definition decodeMembers {T : Type} (names : list string)
    (set : T -> string -> json -> T * option error)
    (members : list (string * json)) (x : T) : T * option error :=
  fold_left
    (fun acc member =>
       match fieldFor names (fst member) with
       | None => acc
       | Some name =>
           let '(x', e) := set (fst acc) name (snd member) in
           (x', firstError (snd acc) e)
       end)
    members (x, None).

Definition decodeStruct {T : Type} (gotype : string) (names : list string)
    (set : T -> string -> json -> T * option error)
    (v : json) (x : T) : T * option error :=
  match v with
  | JObj members => decodeMembers names set members x
  | JNull => (x, None)
  | _ => (x, Some (UnmarshalTypeError (jsonKind v) gotype))
  end.

Definition userFields : list string := ["id"; "name"; "server_id"; "server_era"].

Definition setUser (x : User.t) (name : string) (v : json)
  : User.t * option error :=
  if String.eqb name "id" then
    let '(s, e) := storeString (User.ID x) v in
    (User.mk s (User.Name x) (User.ServerID x) (User.ServerEra x), e)
  else if String.eqb name "name" then
    let '(s, e) := storeString (User.Name x) v in
    (User.mk (User.ID x) s (User.ServerID x) (User.ServerEra x), e)
  else if String.eqb name "server_id" then
    let '(s, e) := storeString (User.ServerID x) v in
    (User.mk (User.ID x) (User.Name x) s (User.ServerEra x), e)
  else if String.eqb name "server_era" then
    let '(s, e) := storeString (User.ServerEra x) v in
    (User.mk (User.ID x) (User.Name x) (User.ServerID x) s, e)
  else (x, None).

Definition pingEventFields : list string := ["time"; "next"].

Definition setPingEvent (x : PingEvent.t) (name : string) (v : json)
  : PingEvent.t * option error :=
  if String.eqb name "time" then
    let '(z, e) := storeInt64 (PingEvent.Time x) v in
    (PingEvent.mk z (PingEvent.Next x), e)
  else if String.eqb name "next" then
    let '(z, e) := storeInt64 (PingEvent.Next x) v in
    (PingEvent.mk (PingEvent.Time x) z, e)
  else (x, None).

Definition pingReplyFields : list string := ["time"].

Definition setPingReply (x : PingReply.t) (name : string) (v : json)
  : PingReply.t * option error :=
  if String.eqb name "time" then
    let '(z, e) := storeInt64 (PingReply.UnixTime x) v in (PingReply.mk z, e)
  else (x, None).

Definition sendCommandFields : list string := ["content"; "parent"].

Definition setSendCommand (x : SendCommand.t) (name : string) (v : json)
  : SendCommand.t * option error :=
  if String.eqb name "content" then
    let '(s, e) := storeString (SendCommand.Content x) v in
    (SendCommand.mk s (SendCommand.Parent x), e)
  else if String.eqb name "parent" then
    let '(s, e) := storeString (SendCommand.Parent x) v in
    (SendCommand.mk (SendCommand.Content x) s, e)
  else (x, None).

Definition authCommandFields : list string := ["type"; "passcode"].

Definition setAuthCommand (x : AuthCommand.t) (name : string) (v : json)
  : AuthCommand.t * option error :=
  if String.eqb name "type" then
    let '(s, e) := storeString (AuthCommand.Type_ x) v in
    (AuthCommand.mk s (AuthCommand.Passcode x), e)
  else if String.eqb name "passcode" then
    let '(s, e) := storeString (AuthCommand.Passcode x) v in
    (AuthCommand.mk (AuthCommand.Type_ x) s, e)
  else (x, None).

Definition nickEventFields : list string := ["session_id"; "id"; "from"; "to"].

Definition setNickEvent (x : NickEvent.t) (name : string) (v : json)
  : NickEvent.t * option error :=
  if String.eqb name "session_id" then
    let '(s, e) := storeString (NickEvent.SessionID x) v in
    (NickEvent.mk s (NickEvent.ID x) (NickEvent.From x) (NickEvent.To x), e)
  else if String.eqb name "id" then
    let '(s, e) := storeString (NickEvent.ID x) v in
    (NickEvent.mk (NickEvent.SessionID x) s (NickEvent.From x) (NickEvent.To x), e)
  else if String.eqb name "from" then
    let '(s, e) := storeString (NickEvent.From x) v in
    (NickEvent.mk (NickEvent.SessionID x) (NickEvent.ID x) s (NickEvent.To x), e)
  else if String.eqb name "to" then
    let '(s, e) := storeString (NickEvent.To x) v in
    (NickEvent.mk (NickEvent.SessionID x) (NickEvent.ID x) (NickEvent.From x) s, e)
  else (x, None).

(** The promoted fields of the embedded [*User] come first; reaching one
    of them allocates the [User] when the pointer is still nil. *)
Definition presenceEventFields : list string := userFields ++ ["session_id"].

Definition setPresenceEvent (x : PresenceEvent.t) (name : string) (v : json)
  : PresenceEvent.t * option error :=
  if String.eqb name "session_id" then
    let '(s, e) := storeString (PresenceEvent.SessionID x) v in
    (PresenceEvent.mk (PresenceEvent.User_ x) s, e)
  else
    let '(u, e) := setUser (default User.zero (PresenceEvent.User_ x)) name v in
    (PresenceEvent.mk (Some u) (PresenceEvent.SessionID x), e).

Definition bounceEventFields : list string :=
  ["reason"; "auth_options"; "agent_id"; "ip"].

Definition setBounceEvent (x : BounceEvent.t) (name : string) (v : json)
  : BounceEvent.t * option error :=
  if String.eqb name "reason" then
    let '(s, e) := storeString (BounceEvent.Reason x) v in
    (BounceEvent.mk s (BounceEvent.AuthOptions x) (BounceEvent.AgentID x)
       (BounceEvent.IP x), e)
  else if String.eqb name "auth_options" then
    let '(l, e) := storeStrings (BounceEvent.AuthOptions x) v in
    (BounceEvent.mk (BounceEvent.Reason x) l (BounceEvent.AgentID x)
       (BounceEvent.IP x), e)
  else if String.eqb name "agent_id" then
    let '(s, e) := storeString (BounceEvent.AgentID x) v in
    (BounceEvent.mk (BounceEvent.Reason x) (BounceEvent.AuthOptions x) s
       (BounceEvent.IP x), e)
  else if String.eqb name "ip" then
    let '(s, e) := storeString (BounceEvent.IP x) v in
    (BounceEvent.mk (BounceEvent.Reason x) (BounceEvent.AuthOptions x)
       (BounceEvent.AgentID x) s, e)
  else (x, None).

Definition messageFields : list string :=
  ["id"; "parent"; "previous_edit_id"; "time"; "sender"; "content";
   "encryption_key_id"; "edited"; "deleted"].

Definition setMessage (x : Message.t) (name : string) (v : json)
  : Message.t * option error :=
  let '(Message.mk id parent prev time sender content key edited deleted) := x in
  if String.eqb name "id" then
    let '(s, e) := storeString id v in
    (Message.mk s parent prev time sender content key edited deleted, e)
  else if String.eqb name "parent" then
    let '(s, e) := storeString parent v in
    (Message.mk id s prev time sender content key edited deleted, e)
  else if String.eqb name "previous_edit_id" then
    let '(s, e) := storeString prev v in
    (Message.mk id parent s time sender content key edited deleted, e)
  else if String.eqb name "time" then
    let '(z, e) := storeInt64 time v in
    (Message.mk id parent prev z sender content key edited deleted, e)
  else if String.eqb name "sender" then
    let '(u, e) := decodeStruct "User" userFields setUser v sender in
    (Message.mk id parent prev time u content key edited deleted, e)
  else if String.eqb name "content" then
    let '(s, e) := storeString content v in
    (Message.mk id parent prev time sender s key edited deleted, e)
  else if String.eqb name "encryption_key_id" then
    let '(s, e) := storeString key v in
    (Message.mk id parent prev time sender content s edited deleted, e)
  else if String.eqb name "edited" then
    let '(z, e) := storeInt64 edited v in
    (Message.mk id parent prev time sender content key z deleted, e)
  else if String.eqb name "deleted" then
    let '(z, e) := storeInt64 deleted v in
    (Message.mk id parent prev time sender content key edited z, e)
  else (x, None).

(** [json.Unmarshal(data, &payload)] where the interface [payload] holds
    a pointer to a struct: bytes that are no JSON text are a syntax error
    and leave [payload] alone; a top-level [null] sets the interface to
    nil; any other value is decoded into the struct pointed to. *)
Definition Unmarshal (data : RawMessage) (target : payload)
  : payload * option error :=
  match data with
  | None => (target, Some SyntaxError)
  | Some JNull => (PNil, None)
  | Some v =>
      match target with
      | PPingEvent x =>
          let '(x', e) := decodeStruct "PingEvent" pingEventFields setPingEvent v x in
          (PPingEvent x', e)
      | PMessage x =>
          let '(x', e) := decodeStruct "Message" messageFields setMessage v x in
          (PMessage x', e)
      | PSendCommand x =>
          let '(x', e) :=
            decodeStruct "SendCommand" sendCommandFields setSendCommand v x in
          (PSendCommand x', e)
      | PNickEvent x =>
          let '(x', e) := decodeStruct "NickEvent" nickEventFields setNickEvent v x in
          (PNickEvent x', e)
      | PPresenceEvent x =>
          let '(x', e) :=
            decodeStruct "PresenceEvent" presenceEventFields setPresenceEvent v x in
          (PPresenceEvent x', e)
      | PPingReply x =>
          let '(x', e) := decodeStruct "PingReply" pingReplyFields setPingReply v x in
          (PPingReply x', e)
      | PAuthCommand x =>
          let '(x', e) :=
            decodeStruct "AuthCommand" authCommandFields setAuthCommand v x in
          (PAuthCommand x', e)
      | PBounceEvent x =>
          let '(x', e) :=
            decodeStruct "BounceEvent" bounceEventFields setBounceEvent v x in
          (PBounceEvent x', e)
      | PRaw _ | PNil => (target, Some (ErrorsNew "json: Unmarshal(non-pointer)"))
      end
  end.

(** ** [Payload] and the typed accessors ([packets.go]) *)

Definition Payload (p : PacketEvent.t) : payload * option error :=
  let type := PacketEvent.Type_ p in
  let data := PacketEvent.Data p in
  if String.eqb type PingEventType then Unmarshal data (PPingEvent PingEvent.zero)
  else if String.eqb type SendEventType || String.eqb type SendReplyType then
    Unmarshal data (PMessage Message.zero)
  else if String.eqb type SendType then Unmarshal data (PSendCommand SendCommand.zero)
  else if String.eqb type NickEventType then Unmarshal data (PNickEvent NickEvent.zero)
  else if String.eqb type JoinEventType || String.eqb type PartEventType then
    Unmarshal data (PPresenceEvent PresenceEvent.zero)
  else if String.eqb type PingReplyType then Unmarshal data (PPingReply PingReply.zero)
  else if String.eqb type AuthType then Unmarshal data (PAuthCommand AuthCommand.zero)
  else if String.eqb type BounceEventType then
    Unmarshal data (PBounceEvent BounceEvent.zero)
  else (PRaw data, Some (ErrorsNew "Unexpected packet type.")).

(** [GetMessagePayload]: the decode error is dropped and the body of
    [if !ok] is empty, so a failed assertion falls through to
    [return se] with [se] the nil pointer, here [None]. *)
Definition GetMessagePayload (packet : PacketEvent.t) : option Message.t :=
  match fst (Payload packet) with
  | PMessage se => Some se
  | _ => None
  end.

Definition GetNickEventPayload (packet : PacketEvent.t) : result NickEvent.t :=
  match fst (Payload packet) with
  | PNickEvent se => Ok se
  | _ => Panic "Failed to assert payload as *NickEvent"
  end.

Definition GetPresenceEventPayload (packet : PacketEvent.t)
  : result PresenceEvent.t :=
  match fst (Payload packet) with
  | PPresenceEvent se => Ok se
  | _ => Panic "Failed to assert payload as *PresenceEvent"
  end.

(** Reading a field through a pointer: nil panics. *)
Definition deref {A : Type} (ptr : option A) : result A :=
  match ptr with
  | Some x => Ok x
  | None => Panic "invalid memory address or nil pointer dereference"
  end.

(** ** The room *)

(** Modelled from the spec: the [Room] type, declared in a file that is
    not among the sources.  The spec gives the room an uptime origin, the
    set of user names that are pending leave, an outgoing send capability
    ([SendText], [sendPing]), an error-reporting channel, a seen store
    and a message-log store.  [dbFault] is the error with which the
    storage backend answers while it is faulty. *)
Record Room : Type := mkRoom
  { uptime : Z;
    leaving : gset string;
    sent : list (string * string);
    pings : list Z;
    errChan : list error;
    seenDB : gmap string string;
    msgLogDB : gmap string MsgLogEvent.t;
    dbFault : option error;
    logged : list string }.

(** Modelled from the spec: [Room.isUserLeaving], the synchronized read
    of the leaving-set. *)
Definition isUserLeaving (r : Room) (user : string) : bool :=
  bool_decide (user ∈ leaving r).

(** Modelled from the spec: [Room.setUserLeaving] marks the user as
    pending leave. *)
Definition setUserLeaving (r : Room) (user : string) : Room :=
  mkRoom (uptime r) ({[user]} ∪ leaving r) (sent r) (pings r) (errChan r)
    (seenDB r) (msgLogDB r) (dbFault r) (logged r).

(** Modelled from the spec: [Room.clearUserLeaving] takes the user out of
    the leaving-set. *)
Definition clearUserLeaving (r : Room) (user : string) : Room :=
  mkRoom (uptime r) (leaving r ∖ {[user]}) (sent r) (pings r) (errChan r)
    (seenDB r) (msgLogDB r) (dbFault r) (logged r).

(** Modelled from the spec: [Room.SendText] sends a text with the given
    parent to the room. *)
Definition SendText (r : Room) (text parent : string) : Room :=
  mkRoom (uptime r) (leaving r) (sent r ++ [(text, parent)]) (pings r)
    (errChan r) (seenDB r) (msgLogDB r) (dbFault r) (logged r).

(** Modelled from the spec: [Room.sendPing] sends a ping-reply with the
    given time. *)
Definition sendPing (r : Room) (time : Z) : Room :=
  mkRoom (uptime r) (leaving r) (sent r) (pings r ++ [time]) (errChan r)
    (seenDB r) (msgLogDB r) (dbFault r) (logged r).

(** Modelled from the spec: [room.errChan <- err], a report on the
    error-reporting channel. *)
Definition reportError (r : Room) (err : error) : Room :=
  mkRoom (uptime r) (leaving r) (sent r) (pings r) (errChan r ++ [err])
    (seenDB r) (msgLogDB r) (dbFault r) (logged r).

(** Modelled from the spec: [room.Logger.Errorf], a line of diagnostic
    log. *)
Definition logError (r : Room) (line : string) : Room :=
  mkRoom (uptime r) (leaving r) (sent r) (pings r) (errChan r)
    (seenDB r) (msgLogDB r) (dbFault r) (logged r ++ [line]).

(** Modelled from the spec: [Room.storeSeen],
    [store(username, unixTimestamp) -> error]. *)
Definition storeSeen (r : Room) (user : string) (t : Z) : Room * option error :=
  match dbFault r with
  | Some err => (r, Some err)
  | None =>
      (mkRoom (uptime r) (leaving r) (sent r) (pings r) (errChan r)
         (<[user := formatInt env t]> (seenDB r)) (msgLogDB r) (dbFault r)
         (logged r), None)
  end.

(** Modelled from the spec: [Room.retrieveSeen],
    [retrieve(username) -> (optional timestamp, error)]. *)
Definition retrieveSeen (r : Room) (user : string)
  : option string * option error :=
  match dbFault r with
  | Some err => (None, Some err)
  | None => (seenDB r !! user, None)
  end.

(** Modelled from the spec: [Room.storeMsgLogEvent],
    [store(messageID, logRecord) -> error]. *)
Definition storeMsgLogEvent (r : Room) (msgID : string) (ev : MsgLogEvent.t)
  : Room * option error :=
  match dbFault r with
  | Some err => (r, Some err)
  | None =>
      (mkRoom (uptime r) (leaving r) (sent r) (pings r) (errChan r)
         (seenDB r) (<[msgID := ev]> (msgLogDB r)) (dbFault r) (logged r), None)
  end.

(** ** The world a handler runs in

    Besides the shared room: the wall clock in nanoseconds, and the
    [partTimer] goroutines asleep in [time.Sleep], each with the instant
    its sleep is over and its [user] argument. *)
Record World : Type := mkWorld
  { room : Room;
    clock : Z;
    sleeping : list (Z * string) }.

Definition onRoom (f : Room -> Room) (w : World) : World :=
  mkWorld (f (room w)) (clock w) (sleeping w).

Definition spawn (w : World) (wakeAt : Z) (user : string) : World :=
  mkWorld (room w) (clock w) (sleeping w ++ [(wakeAt, user)]).

(** [time.Minute], in nanoseconds. *)
Definition Minute : Z := 60 * 1000000000.

(** [time.Duration(5) * time.Minute] *)
Definition partDelay : Z := 5 * Minute.

(** What one turn of a handler's [for] loop does: go round again,
    return, or panic. *)
Inductive outcome : Type :=
| Continue (w : World)
| Return (w : World)
| Crash (w : World) (msg : string).

(** The case [select] takes: a packet from [input] or a command from
    [cmdChan]. *)
Inductive selected : Type :=
| Input (packet : PacketEvent.t)
| Cmd (cmd : string).

Definition Handler : Type := World -> selected -> outcome.

Definition try {A : Type} (w : World) (r : result A) (k : A -> outcome)
  : outcome :=
  match r with
  | Ok a => k a
  | Panic msg => Crash w msg
  end.

(** A handler's loop over the cases its [select] takes in turn; when the
    cases run out the handler is blocked in [select]. *)
Fixpoint runHandler (h : Handler) (w : World) (turns : list selected)
  : outcome :=
  match turns with
  | [] => Continue w
  | turn :: rest =>
      match h w turn with
      | Continue w' => runHandler h w' rest
      | done => done
      end
  end.

(** ** The handlers ([handlers.go]) *)

Definition prepareMsgLogEvent (msg : Message.t) : string * MsgLogEvent.t :=
  (Message.ID msg,
   MsgLogEvent.mk (Message.Parent msg) (User.ID (Message.Sender msg))
     (User.Name (Message.Sender msg)) (Message.Time msg) (Message.Content msg)).

Definition PingEventHandler : Handler := fun w turn =>
  match turn with
  | Input packet =>
      if negb (String.eqb (PacketEvent.Type_ packet) PingEventType) then Continue w
      else
        match Payload packet with
        | (_, Some err) => Return (onRoom (fun r => reportError r err) w)
        | (PPingEvent data, None) =>
            Continue (onRoom (fun r => sendPing r (PingEvent.Time data)) w)
        | (_, None) =>
            Return (onRoom (fun r => reportError r
                      (ErrorsNew "Could not assert payload as *PingEvent.")) w)
        end
  | Cmd cmd => if String.eqb cmd "kill" then Return w else Continue w
  end.

Definition PingCommandHandler : Handler := fun w turn =>
  match turn with
  | Input packet =>
      if negb (String.eqb (PacketEvent.Type_ packet) SendEventType) then Continue w
      else
        try w (deref (GetMessagePayload packet)) (fun data =>
        if isValidPingCommand (Message.Content data)
        then Continue (onRoom (fun r => SendText r "pong!" (Message.ID data)) w)
        else Continue w)
  | Cmd cmd => if String.eqb cmd "kill" then Return w else Continue w
  end.

Definition SeenRecordHandler : Handler := fun w turn =>
  match turn with
  | Input packet =>
      if negb (String.eqb (PacketEvent.Type_ packet) SendEventType) then Continue w
      else
        try w (deref (GetMessagePayload packet)) (fun data =>
        let user := RemoveAll (User.Name (Message.Sender data)) " "%char in
        let t := clock w / 1000000000 in
        match storeSeen (room w) user t with
        | (r, Some err) => Return (onRoom (fun _ => reportError r err) w)
        | (r, None) => Continue (onRoom (fun _ => r) w)
        end)
  | Cmd cmd => if String.eqb cmd "kill" then Return w else Continue w
  end.

Definition SeenCommandHandler : Handler := fun w turn =>
  match turn with
  | Input packet =>
      if negb (String.eqb (PacketEvent.Type_ packet) SendEventType) then Continue w
      else
        try w (deref (GetMessagePayload packet)) (fun data =>
        try w (isValidSeenCommand (Message.Content data)) (fun valid =>
        if valid then
          let trimmed := TrimSpace env (Message.Content data) in
          let splits := Split trimmed " "%char in
          try w (match nth_error splits 1 with
                 | Some word => sliceFrom word 1
                 | None => Panic "index out of range"
                 end) (fun name =>
          match retrieveSeen (room w) name with
          | (_, Some err) => Return (onRoom (fun r => reportError r err) w)
          | (None, None) =>
              Continue (onRoom (fun r =>
                SendText r "User has not been seen yet." (Message.ID data)) w)
          | (Some lastSeen, None) =>
              let lastSeenInt := Atoi env lastSeen in
              let since := clock w - lastSeenInt * 1000000000 in
              Continue (onRoom (fun r =>
                SendText r
                  ("Seen " +:+ formatInt env (hoursOf env since) +:+ " hours ago.")
                  (Message.ID data)) w)
          end)
        else Continue w))
  | Cmd cmd => if String.eqb cmd "kill" then Return w else Continue w
  end.

(** The tokenizer yields [ErrorToken] once the body is exhausted. *)
Fixpoint extractTitleFromTree (depth : nat) (z : list token) : string :=
  match z with
  | [] => ""
  | ErrorToken :: _ => ""
  | TextToken text :: rest =>
      if (0 <? depth)%nat then
        let title := TrimSpace env text in
        if String.eqb title "Imgur" then "" else title
      else extractTitleFromTree depth rest
  | StartTagToken tn :: rest =>
      if String.eqb tn "title" then extractTitleFromTree (S depth) rest
      else extractTitleFromTree depth rest
  | OtherToken :: rest => extractTitleFromTree depth rest
  end.

Definition getLinkTitle (url : string) : string * option error :=
  match httpGet env url with
  | inl err => ("", Some err)
  | inr (status, body) =>
      if negb (status =? 200) then ("", Some (HTTPError "Bad response code"))
      else (extractTitleFromTree 0 body, None)
  end.

(** The [range] loop over the URLs found, left at the first usable title. *)
Fixpoint replyFirstTitle (r : Room) (urls : list string) (parent : string)
  : Room :=
  match urls with
  | [] => r
  | url :: rest =>
      let url := if negb (HasPrefix url "http") then "http://" +:+ url else url in
      match getLinkTitle url with
      | (title, None) =>
          if negb (String.eqb title "")
          then SendText r ("Link title: " +:+ title) parent
          else replyFirstTitle r rest parent
      | (_, Some _) => replyFirstTitle r rest parent
      end
  end.

Definition LinkTitleHandler : Handler := fun w turn =>
  match turn with
  | Input packet =>
      if negb (String.eqb (PacketEvent.Type_ packet) SendEventType) then Continue w
      else
        try w (deref (GetMessagePayload packet)) (fun data =>
        let urls := FindAllString env (Message.Content data) in
        Continue (onRoom (fun r => replyFirstTitle r urls (Message.ID data)) w))
  | Cmd cmd => if String.eqb cmd "kill" then Return w else Continue w
  end.

Definition UptimeCommandHandler : Handler := fun w turn =>
  match turn with
  | Input packet =>
      if negb (String.eqb (PacketEvent.Type_ packet) SendEventType) then Continue w
      else
        try w (deref (GetMessagePayload packet)) (fun data =>
        if String.eqb (Message.Content data) "!uptime" then
          let since := clock w - uptime (room w) in
          Continue (onRoom (fun r =>
            SendText r
              ("This bot has been up for " +:+ durationString env since +:+ ".")
              (Message.ID data)) w)
        else Continue w)
  | Cmd cmd => if String.eqb cmd "kill" then Return w else Continue w
  end.

Definition ScritchCommandHandler : Handler := fun w turn =>
  match turn with
  | Input packet =>
      if negb (String.eqb (PacketEvent.Type_ packet) SendEventType) then Continue w
      else
        try w (deref (GetMessagePayload packet)) (fun data =>
        if String.eqb (Message.Content data) "!scritch"
        then Continue (onRoom (fun r => SendText r "/me bruxes" (Message.ID data)) w)
        else Continue w)
  | Cmd cmd => if String.eqb cmd "kill" then Return w else Continue w
  end.

Definition DebugHandler : Handler := fun w turn =>
  match turn with
  | Input packet =>
      let w1 :=
        if negb (String.eqb (PacketEvent.Error packet) "")
        then onRoom (fun r => logError r
               ("Packet received containing error: " +:+ PacketEvent.Error packet)) w
        else w in
      if String.eqb (PacketEvent.Type_ packet) BounceEventType then
        match Payload packet with
        | (_, Some _) => Continue w1
        | (PBounceEvent data, None) =>
            Continue (onRoom (fun r => logError r
              ("BounceEvent received, reason: " +:+ BounceEvent.Reason data
               +:+ " and ID: " +:+ PacketEvent.ID packet)) w1)
        | (_, None) => Continue w1
        end
      else Continue w1
  | Cmd cmd => if String.eqb cmd "kill" then Return w else Continue w
  end.

Definition NickChangeHandler : Handler := fun w turn =>
  match turn with
  | Input packet =>
      if negb (String.eqb (PacketEvent.Type_ packet) NickEventType) then Continue w
      else
        try w (GetNickEventPayload packet) (fun data =>
        if String.eqb (NickEvent.From data) "" || String.eqb (NickEvent.To data) ""
        then Continue w
        else Continue (onRoom (fun r =>
               SendText r
                 ("< " +:+ NickEvent.From data +:+ " is now known as "
                  +:+ NickEvent.To data +:+ ". >") "") w))
  | Cmd cmd => if String.eqb cmd "kill" then Return w else Continue w
  end.

Definition leftText (user : string) : string := "< " +:+ user +:+ " left the room. >".

Definition joinedText (user : string) : string :=
  "< " +:+ user +:+ " joined the room. >".

(** [partTimer] from the moment [time.Sleep] returns. *)
Definition partTimer (r : Room) (user : string) : Room :=
  if isUserLeaving r user && negb (String.eqb user "")
  then clearUserLeaving (SendText r (leftText user) "") user
  else r.

Definition PartEventHandler : Handler := fun w turn =>
  match turn with
  | Input packet =>
      if negb (String.eqb (PacketEvent.Type_ packet) PartEventType) then Continue w
      else
        try w (GetPresenceEventPayload packet) (fun data =>
        try w (deref (PresenceEvent.User_ data)) (fun u =>
        let user := User.Name u in
        Continue (spawn (onRoom (fun r => setUserLeaving r user) w)
                    (clock w + partDelay) user)))
  | Cmd cmd => if String.eqb cmd "kill" then Return w else Continue w
  end.

Definition JoinEventHandler : Handler := fun w turn =>
  match turn with
  | Input packet =>
      let type := PacketEvent.Type_ packet in
      if negb (String.eqb type JoinEventType) && negb (String.eqb type NickEventType)
      then Continue w
      else if String.eqb type JoinEventType then
        try w (GetPresenceEventPayload packet) (fun data =>
        try w (deref (PresenceEvent.User_ data)) (fun u =>
        let user := User.Name u in
        if String.eqb user "" then Continue w
        else
          let r1 :=
            if negb (isUserLeaving (room w) user)
            then SendText (room w) (joinedText user) ""
            else room w in
          Continue (onRoom (fun _ => clearUserLeaving r1 user) w)))
      else if String.eqb type NickEventType then
        try w (GetNickEventPayload packet) (fun data =>
        if negb (String.eqb (NickEvent.From data) "") then Continue w
        else
          let r1 :=
            if negb (isUserLeaving (room w) (NickEvent.To data))
            then SendText (room w) (joinedText (NickEvent.To data)) ""
            else room w in
          Continue (onRoom (fun _ => clearUserLeaving r1 (NickEvent.To data)) w))
      else Continue w
  | Cmd cmd => if String.eqb cmd "kill" then Return w else Continue w
  end.

Definition MessageLogHandler : Handler := fun w turn =>
  match turn with
  | Input packet =>
      let type := PacketEvent.Type_ packet in
      if String.eqb type SendEventType then
        try w (deref (GetMessagePayload packet)) (fun data =>
        let '(msgID, msgLogEvent) := prepareMsgLogEvent data in
        Continue (onRoom (fun r => fst (storeMsgLogEvent r msgID msgLogEvent)) w))
      else if String.eqb type SendReplyType then
        try w (deref (GetMessagePayload packet)) (fun data =>
        let '(msgID, msgLogEvent) := prepareMsgLogEvent data in
        Continue (onRoom (fun r => fst (storeMsgLogEvent r msgID msgLogEvent)) w))
      else Continue w
  | Cmd cmd => if String.eqb cmd "kill" then Return w else Continue w
  end.

(** The handlers of the file, by name. *)
Inductive handlerName : Type :=
| PingEvent_
| PingCommand_
| SeenRecord_
| SeenCommand_
| LinkTitle_
| UptimeCommand_
| ScritchCommand_
| Debug_
| NickChange_
| PartEvent_
| JoinEvent_
| MessageLog_.

Definition handlerOf (name : handlerName) : Handler :=
  match name with
  | PingEvent_ => PingEventHandler
  | PingCommand_ => PingCommandHandler
  | SeenRecord_ => SeenRecordHandler
  | SeenCommand_ => SeenCommandHandler
  | LinkTitle_ => LinkTitleHandler
  | UptimeCommand_ => UptimeCommandHandler
  | ScritchCommand_ => ScritchCommandHandler
  | Debug_ => DebugHandler
  | NickChange_ => NickChangeHandler
  | PartEvent_ => PartEventHandler
  | JoinEvent_ => JoinEventHandler
  | MessageLog_ => MessageLogHandler
  end.

(** The packet types whose payload a handler acts on. *)
Definition reactsTo (name : handlerName) : list PacketType :=
  match name with
  | PingEvent_ => [PingEventType]
  | PingCommand_ | SeenRecord_ | SeenCommand_ | LinkTitle_ | UptimeCommand_
  | ScritchCommand_ => [SendEventType]
  | Debug_ => [BounceEventType]
  | NickChange_ => [NickEventType]
  | PartEvent_ => [PartEventType]
  | JoinEvent_ => [JoinEventType; NickEventType]
  | MessageLog_ => [SendEventType; SendReplyType]
  end.

Definition hasType (types : list PacketType) (packet : PacketEvent.t) : bool :=
  existsb (String.eqb (PacketEvent.Type_ packet)) types.

(** The type tags [Payload] has a case for. *)
Definition registered : list PacketType :=
  [ PingEventType; SendEventType; SendReplyType; SendType; NickEventType;
    JoinEventType; PartEventType; PingReplyType; AuthType; BounceEventType ].

(** A ping-event body in good form: an object in which some member
    selects the field [time] and some member the field [next], and every
    member that selects one of them carries an integer that fits
    [int64], the same one for the same field. *)
Definition selects (field : string) (member : string * json) : bool :=
  match fieldFor pingEventFields (fst member) with
  | Some name => String.eqb name field
  | None => false
  end.

Definition carries (value : Z) (member : string * json) : bool :=
  match snd member with
  | JNum z => z =? value
  | _ => false
  end.

Definition wellFormedPing (members : list (string * json)) (time next : Z)
  : bool :=
  inInt64 time && inInt64 next
  && existsb (selects "time") members && existsb (selects "next") members
  && forallb (fun m => negb (selects "time" m) || carries time m) members
  && forallb (fun m => negb (selects "next" m) || carries next m) members.

(** Two worlds that differ at most in the lines written to the logger:
    nothing sent, no error reported, leaving-set, stores, clock and
    sleeping timers as they were. *)
Definition quiet (w w' : World) : Prop :=
  uptime (room w') = uptime (room w)
  /\ leaving (room w') = leaving (room w)
  /\ sent (room w') = sent (room w)
  /\ pings (room w') = pings (room w)
  /\ errChan (room w') = errChan (room w)
  /\ seenDB (room w') = seenDB (room w)
  /\ msgLogDB (room w') = msgLogDB (room w)
  /\ dbFault (room w') = dbFault (room w)
  /\ clock w' = clock w
  /\ sleeping w' = sleeping w.

(** ** Presence debounce as a transition system

    The part handler, the join handler and the [partTimer] goroutines
    share the room.  One action is one of them taking a turn: a handler
    reacting to the next packet in its channel, time passing, or a
    sleeping [partTimer] waking up, which [time.Sleep] allows once the
    delay is over.  A turn runs without interleaving: the spec asks for
    exclusive access to the leaving-set around each check-and-act. *)
Inductive action : Type :=
| PartTurn (packet : PacketEvent.t)
| JoinTurn (packet : PacketEvent.t)
| Elapse (d : Z)
| Wake (wakeAt : Z) (user : string).

Definition sameSleeper (a b : Z * string) : bool :=
  (fst a =? fst b) && String.eqb (snd a) (snd b).

Fixpoint removeSleeper (x : Z * string) (l : list (Z * string))
  : list (Z * string) :=
  match l with
  | [] => []
  | y :: rest => if sameSleeper x y then rest else y :: removeSleeper x rest
  end.

(** [None]: the action cannot be taken, or the process has panicked. *)
Definition step (w : World) (a : action) : option World :=
  match a with
  | PartTurn packet =>
      match PartEventHandler w (Input packet) with
      | Continue w' => Some w'
      | _ => None
      end
  | JoinTurn packet =>
      match JoinEventHandler w (Input packet) with
      | Continue w' => Some w'
      | _ => None
      end
  | Elapse d =>
      if 0 <=? d then Some (mkWorld (room w) (clock w + d) (sleeping w)) else None
  | Wake wakeAt user =>
      if existsb (sameSleeper (wakeAt, user)) (sleeping w) && (wakeAt <=? clock w)
      then Some (mkWorld (partTimer (room w) user) (clock w)
                   (removeSleeper (wakeAt, user) (sleeping w)))
      else None
  end.

Fixpoint run (w : World) (trace : list action) : option World :=
  match trace with
  | [] => Some w
  | a :: rest =>
      match step w a with
      | Some w' => run w' rest
      | None => None
      end
  end.

(** The user a presence packet names. *)
Definition presenceName (packet : PacketEvent.t) : option string :=
  match GetPresenceEventPayload packet with
  | Ok data => User.Name <$> PresenceEvent.User_ data
  | Panic _ => None
  end.

(** The user a nick-event with an empty [from] brings in. *)
Definition nickInName (packet : PacketEvent.t) : option string :=
  match GetNickEventPayload packet with
  | Ok data =>
      if String.eqb (NickEvent.From data) "" then Some (NickEvent.To data) else None
  | Panic _ => None
  end.

Definition isSome (o : option string) (user : string) : bool :=
  match o with
  | Some name => String.eqb name user
  | None => false
  end.

(** The part handler reacts to a part-event for [user]. *)
Definition partFor (user : string) (a : action) : bool :=
  match a with
  | PartTurn packet =>
      String.eqb (PacketEvent.Type_ packet) PartEventType
      && isSome (presenceName packet) user
  | _ => false
  end.

(** The join handler reacts to a join-event for [user]. *)
Definition joinEventFor (user : string) (a : action) : bool :=
  match a with
  | JoinTurn packet =>
      String.eqb (PacketEvent.Type_ packet) JoinEventType
      && isSome (presenceName packet) user
  | _ => false
  end.

(** The join handler reacts to a nick-event from the empty name to [user]. *)
Definition nickInFor (user : string) (a : action) : bool :=
  match a with
  | JoinTurn packet =>
      String.eqb (PacketEvent.Type_ packet) NickEventType
      && isSome (nickInName packet) user
  | _ => false
  end.

Definition joinFor (user : string) (a : action) : bool :=
  joinEventFor user a || nickInFor user a.

Definition wakeFor (user : string) (a : action) : bool :=
  match a with
  | Wake _ name => String.eqb name user
  | _ => false
  end.

Definition sleeperFor (user : string) (s : Z * string) : bool :=
  String.eqb (snd s) user.

(** What both branches of [JoinEventHandler] do for a user they do not
    ignore: announce the join unless the user is pending leave, then take
    the user out of the leaving-set. *)
Definition rejoin (r : Room) (user : string) : Room :=
  clearUserLeaving
    (if negb (isUserLeaving r user) then SendText r (joinedText user) "" else r)
    user.

(** How many times [text] has been sent to the room. *)
Definition timesSent (text : string) (r : Room) : nat :=
  List.length (List.filter (fun m => String.eqb (fst m) text) (sent r)).

(** The number of leave announcements for [user] so far. *)
Definition leaves (user : string) (w : World) : nat :=
  timesSent (leftText user) (room w).

End Maimai.

(** ** Concrete packets and worlds *)

Definition emptyRoom : Room :=
  mkRoom 0 ∅ [] [] [] ∅ ∅ None [].

Definition world0 : World := mkWorld emptyRoom 0 [].

Definition presenceBody (name : string) : json :=
  JObj [("id", JStr "agent:1"); ("name", JStr name);
        ("server_id", JStr "heim"); ("server_era", JStr "era");
        ("session_id", JStr "s1")].

Definition partPacket (name : string) : PacketEvent.t :=
  PacketEvent.mk "" PartEventType (Some (presenceBody name)) "".

Definition joinPacket (name : string) : PacketEvent.t :=
  PacketEvent.mk "" JoinEventType (Some (presenceBody name)) "".

Definition nickPacket (from to : string) : PacketEvent.t :=
  PacketEvent.mk "" NickEventType
    (Some (JObj [("session_id", JStr "s1"); ("id", JStr "agent:1");
                 ("from", JStr from); ("to", JStr to)])) "".

Definition sendPacket (type : PacketType) (content : string) : PacketEvent.t :=
  PacketEvent.mk "p1" type
    (Some (JObj [("id", JStr "m1"); ("parent", JStr ""); ("time", JNum 1438000000);
                 ("sender", JObj [("id", JStr "agent:2"); ("name", JStr "carol")]);
                 ("content", JStr content)])) "".

(** The world two minutes after bob left and came back at once: nobody
    is leaving, and the timer of that part-event is still asleep. *)
Definition staleWorld : World :=
  mkWorld emptyRoom (2 * Minute) [(5 * Minute, "bob")].

(** A world whose storage backend answers every call with [e]. *)
Definition faultyWorld (e : error) : World :=
  mkWorld (mkRoom 0 ∅ [] [] [] ∅ ∅ (Some e) []) 0 [].

(** ** Counting and invariants used in the statements below *)

(** The number of bytes of [s] equal to [c]. *)
Fixpoint countByte (c : ascii) (s : string) : nat :=
  match s with
  | EmptyString => 0
  | String x rest => ((if Ascii.eqb x c then 1 else 0) + countByte c rest)%nat
  end.

(** Tokens that [extractTitleFromTree] passes over before it has seen a
    title start tag: anything but the end of input and that tag. *)
Definition beforeTitle (t : token) : bool :=
  match t with
  | ErrorToken => false
  | StartTagToken name => negb (String.eqb name "title")
  | _ => true
  end.

(** Tokens it passes over after the tag: anything but the end of input
    and text. *)
Definition noText (t : token) : bool :=
  match t with
  | ErrorToken | TextToken _ => false
  | _ => true
  end.

(** The URL [LinkTitleHandler] fetches for a match of [linkMatcher]. *)
Definition withScheme (url : string) : string :=
  if negb (HasPrefix url "http") then "http://" +:+ url else url.

(** A fetch that gives [LinkTitleHandler] nothing to reply with. *)
Definition unusable (fetched : string * option error) : bool :=
  match fetched with
  | (title, None) => String.eqb title ""
  | (_, Some _) => true
  end.

(** The Go type of the value an [interface{}] holds. *)
Definition dynamicType (v : payload) : string :=
  match v with
  | PPingEvent _ => "*PingEvent"
  | PMessage _ => "*Message"
  | PSendCommand _ => "*SendCommand"
  | PNickEvent _ => "*NickEvent"
  | PPresenceEvent _ => "*PresenceEvent"
  | PPingReply _ => "*PingReply"
  | PAuthCommand _ => "*AuthCommand"
  | PBounceEvent _ => "*BounceEvent"
  | PRaw _ => "json.RawMessage"
  | PNil => "nil"
  end.

(** The struct the [switch] of [Payload] allocates for a type tag. *)
Definition allocated (type : PacketType) : option string :=
  if String.eqb type PingEventType then Some "*PingEvent"
  else if String.eqb type SendEventType || String.eqb type SendReplyType
  then Some "*Message"
  else if String.eqb type SendType then Some "*SendCommand"
  else if String.eqb type NickEventType then Some "*NickEvent"
  else if String.eqb type JoinEventType || String.eqb type PartEventType
  then Some "*PresenceEvent"
  else if String.eqb type PingReplyType then Some "*PingReply"
  else if String.eqb type AuthType then Some "*AuthCommand"
  else if String.eqb type BounceEventType then Some "*BounceEvent"
  else None.

(** A member of a presence body that selects a field of the embedded
    [User]. *)
Definition userMember (env : Env) (member : string * json) : bool :=
  match fieldFor env presenceEventFields (fst member) with
  | Some name => negb (String.eqb name "session_id")
  | None => false
  end.

(** Every user with a non-empty name who is pending leave has a
    [partTimer] asleep that will look at the leaving-set again. *)
Definition everyLeaveArmed (w : World) : Prop :=
  forall user : string,
    user ∈ leaving (room w) -> user <> "" ->
    exists wakeAt : Z, In (wakeAt, user) (sleeping w).

(** ** [MakePacket] ([packets.go]) *)

(** What [json.Marshal] is parametric in: the coercion of a string to
    valid UTF-8 that it applies before quoting, and its treatment of a
    [json.RawMessage] value, which differs between Go releases. *)
Record Encoder : Type := mkEncoder
  { toValidUTF8 : string -> string;
    marshalRaw : RawMessage -> error + json }.

Definition quote (enc : Encoder) (s : string) : json := JStr (toValidUTF8 enc s).

(** A string field tagged [omitempty]. *)
Definition omitString (enc : Encoder) (key s : string) : list (string * json) :=
  if String.eqb s "" then [] else [(key, quote enc s)].

(** An integer field tagged [omitempty]. *)
Definition omitInt (key : string) (z : Z) : list (string * json) :=
  if z =? 0 then [] else [(key, JNum z)].

Definition marshalUser (enc : Encoder) (u : User.t) : list (string * json) :=
  [ ("id", quote enc (User.ID u)); ("name", quote enc (User.Name u));
    ("server_id", quote enc (User.ServerID u));
    ("server_era", quote enc (User.ServerEra u)) ].

(** [json.Marshal] of what the interface holds: a pointer to a payload
    struct gives an object with the fields in declaration order under
    their JSON names, without the empty [omitempty] fields and without
    the fields of a nil embedded pointer; nil gives [null]. *)
Definition Marshal (enc : Encoder) (v : payload) : error + json :=
  match v with
  | PPingEvent x =>
      inr (JObj [ ("time", JNum (PingEvent.Time x));
                  ("next", JNum (PingEvent.Next x)) ])
  | PMessage x =>
      inr (JObj
             ([ ("id", quote enc (Message.ID x));
                ("parent", quote enc (Message.Parent x)) ]
              ++ omitString enc "previous_edit_id" (Message.PreviousEditID x)
              ++ [ ("time", JNum (Message.Time x));
                   ("sender", JObj (marshalUser enc (Message.Sender x)));
                   ("content", quote enc (Message.Content x)) ]
              ++ omitString enc "encryption_key_id" (Message.EncryptionKeyID x)
              ++ omitInt "edited" (Message.Edited x)
              ++ omitInt "deleted" (Message.Deleted x)))
  | PSendCommand x =>
      inr (JObj [ ("content", quote enc (SendCommand.Content x));
                  ("parent", quote enc (SendCommand.Parent x)) ])
  | PNickEvent x =>
      inr (JObj [ ("session_id", quote enc (NickEvent.SessionID x));
                  ("id", quote enc (NickEvent.ID x));
                  ("from", quote enc (NickEvent.From x));
                  ("to", quote enc (NickEvent.To x)) ])
  | PPresenceEvent x =>
      inr (JObj
             (match PresenceEvent.User_ x with
              | Some u => marshalUser enc u
              | None => []
              end
              ++ [("session_id", quote enc (PresenceEvent.SessionID x))]))
  | PPingReply x => inr (JObj (omitInt "time" (PingReply.UnixTime x)))
  | PAuthCommand x =>
      inr (JObj
             ([("type", quote enc (AuthCommand.Type_ x))]
              ++ omitString enc "passcode" (AuthCommand.Passcode x)))
  | PBounceEvent x =>
      inr (JObj
             (omitString enc "reason" (BounceEvent.Reason x)
              ++ match BounceEvent.AuthOptions x with
                 | [] => []
                 | options => [("auth_options", JArr (map (quote enc) options))]
                 end
              ++ omitString enc "agent_id" (BounceEvent.AgentID x)
              ++ omitString enc "ip" (BounceEvent.IP x)))
  | PRaw r => marshalRaw enc r
  | PNil => inr JNull
  end.

(** [MakePacket]: the error of [json.Marshal] is passed on; copying the
    bytes into [packet.Data] through [UnmarshalJSON] cannot fail, the
    receiver being the address of a field. *)
Definition MakePacket (enc : Encoder) (ID : string) (msgType : PacketType)
    (v : payload) : error + PacketEvent.t :=
  match Marshal enc v with
  | inl err => inl err
  | inr data => inr (PacketEvent.mk ID msgType (Some data) "")
  end.

(** A payload struct as Go can hold it and JSON can carry it: strings of
    valid UTF-8, integers within [int64]. *)
Definition okString (enc : Encoder) (s : string) : bool :=
  String.eqb (toValidUTF8 enc s) s.

Definition okUser (enc : Encoder) (u : User.t) : bool :=
  okString enc (User.ID u) && okString enc (User.Name u)
  && okString enc (User.ServerID u) && okString enc (User.ServerEra u).

Definition wellEncoded (enc : Encoder) (v : payload) : bool :=
  match v with
  | PPingEvent x => inInt64 (PingEvent.Time x) && inInt64 (PingEvent.Next x)
  | PMessage x =>
      okString enc (Message.ID x) && okString enc (Message.Parent x)
      && okString enc (Message.PreviousEditID x) && inInt64 (Message.Time x)
      && okUser enc (Message.Sender x) && okString enc (Message.Content x)
      && okString enc (Message.EncryptionKeyID x)
      && inInt64 (Message.Edited x) && inInt64 (Message.Deleted x)
  | PSendCommand x =>
      okString enc (SendCommand.Content x) && okString enc (SendCommand.Parent x)
  | PNickEvent x =>
      okString enc (NickEvent.SessionID x) && okString enc (NickEvent.ID x)
      && okString enc (NickEvent.From x) && okString enc (NickEvent.To x)
  | PPresenceEvent x =>
      match PresenceEvent.User_ x with
      | Some u => okUser enc u
      | None => true
      end && okString enc (PresenceEvent.SessionID x)
  | PPingReply x => inInt64 (PingReply.UnixTime x)
  | PAuthCommand x =>
      okString enc (AuthCommand.Type_ x) && okString enc (AuthCommand.Passcode x)
  | PBounceEvent x =>
      okString enc (BounceEvent.Reason x)
      && forallb (okString enc) (BounceEvent.AuthOptions x)
      && okString enc (BounceEvent.AgentID x) && okString enc (BounceEvent.IP x)
  | PRaw _ | PNil => false
  end.

(** An encoder to run the model with, for ASCII strings. *)
Definition testEncoder : Encoder :=
  {| toValidUTF8 := fun s => s;
     marshalRaw := fun r => match r with
                            | Some v => inr v
                            | None => inr JNull
                            end |}.

(** ** More concrete data *)

(** The message [sendPacket] carries. *)
Definition sentMessage (content : string) : Message.t :=
  Message.mk "m1" "" "" 1438000000 (User.mk "agent:2" "carol" "" "") content "" 0 0.

(** An environment with a small web: one page with a title, one that
    answers 404, nothing else. *)
Definition pageEnv : Env :=
  {| equalFold := asciiFold;
     TrimSpace := fun s => s;
     FindAllString := fun _ => [];
     httpGet := fun url =>
       if String.eqb url "http://example.com"
       then inr (200, [StartTagToken "html"; StartTagToken "title";
                       TextToken "Example Domain"; OtherToken])
       else if String.eqb url "http://gone.example" then inr (404, [])
       else inl (HTTPError "no such host");
     Atoi := fun _ => 0;
     formatInt := fun _ => "0";
     hoursOf := fun d => Z.quot d 3600000000000;
     durationString := fun _ => "0s" |}.

(** * Properties *)

(** ** Strings *)

Lemma substring_0_0 (s : string) : substring 0 0 s = "".
Proof. destruct s; reflexivity. Qed.

(** [s[0:len(p)] == p], guarded by the length test, is the prefix test. *)
Lemma guarded_slice_is_prefix (p s : string) :
  (String.length p <=? String.length s)%nat
  && String.eqb (substring 0 (String.length p) s) p
  = String.prefix p s.
Proof.
  revert s. induction p as [|a p IH]; intros s.
  - change (String.length "") with 0%nat. rewrite substring_0_0.
    destruct s; reflexivity.
  - destruct s as [|b s]; [reflexivity|].
    cbn [String.length substring String.prefix String.eqb].
    change (S (String.length p) <=? S (String.length s))%nat
      with (String.length p <=? String.length s)%nat.
    destruct (ascii_dec a b) as [->|Hab].
    + rewrite Ascii.eqb_refl. apply IH.
    + assert (Ascii.eqb b a = false) as ->
        by (apply Ascii.eqb_neq; congruence).
      apply andb_false_r.
Qed.

Lemma length_append (a b : string) :
  String.length (a +:+ b) = (String.length a + String.length b)%nat.
Proof. induction a as [|c a IH]; simpl; [reflexivity | now rewrite IH]. Qed.

Lemma append_cancel_r (a b tail : string) : a +:+ tail = b +:+ tail -> a = b.
Proof.
  revert b. induction a as [|c a IH]; intros [|d b] H; simpl in H.
  - reflexivity.
  - apply (f_equal String.length) in H.
    rewrite ?length_append in H. simpl in H. rewrite ?length_append in H. lia.
  - apply (f_equal String.length) in H.
    rewrite ?length_append in H. simpl in H. rewrite ?length_append in H. lia.
  - injection H as -> H. f_equal. now apply IH.
Qed.

Lemma get_append_r (a b : string) (n : nat) :
  String.get (String.length a + n) (a +:+ b) = String.get n b.
Proof. induction a as [|c a IH]; simpl; [reflexivity | apply IH]. Qed.

Lemma leftText_unfold (u : string) :
  leftText u = String "<" (String " " (u +:+ " left the room. >")).
Proof. reflexivity. Qed.

Lemma joinedText_unfold (u : string) :
  joinedText u = String "<" (String " " (u +:+ " joined the room. >")).
Proof. reflexivity. Qed.

Lemma leftText_inj (u v : string) : leftText u = leftText v -> u = v.
Proof.
  rewrite !leftText_unfold. intros H. injection H as H.
  now apply append_cancel_r in H.
Qed.

Lemma leftText_not_joinedText (u v : string) : leftText u <> joinedText v.
Proof.
  rewrite leftText_unfold, joinedText_unfold. intros H. injection H as H.
  assert (Hlen := f_equal String.length H).
  rewrite !length_append in Hlen. simpl in Hlen.
  assert (Hget := f_equal (String.get (String.length u + 4)) H).
  rewrite get_append_r in Hget.
  replace (String.length u + 4)%nat with (String.length v + 6)%nat in Hget by lia.
  rewrite get_append_r in Hget. discriminate Hget.
Qed.

(** ** Command matchers *)

(** C4, as the code decides the examples.  [isValidPingCommand] is the
    test for the prefix [!ping] and nothing more, so it accepts
    [!ping extra text] and it accepts [!pingx] as well;
    [isValidSeenCommand] accepts [!seen @carol] and rejects
    [!seen carol]. *)
Theorem command_matchers_on_examples :
  (forall content, isValidPingCommand content = String.prefix "!ping" content)
  /\ isValidPingCommand "!ping extra text" = true
  /\ isValidPingCommand "!pingx" = true
  /\ isValidSeenCommand "!seen @carol" = Ok true
  /\ isValidSeenCommand "!seen carol" = Ok false.
Proof.
  split; [|repeat split; reflexivity].
  intros content. exact (guarded_slice_is_prefix "!ping" content).
Qed.

(** C4 as the claim words it, with [!pingx] rejected, does not hold. *)
Lemma ping_matcher_accepts_pingx :
  ~ (isValidPingCommand "!ping extra text" = true
     /\ isValidPingCommand "!pingx" = false
     /\ isValidSeenCommand "!seen @carol" = Ok true
     /\ isValidSeenCommand "!seen carol" = Ok false).
Proof. intros (_ & H & _). discriminate H. Qed.

(** C10, at the inputs that break it: on the content [!seen], and on
    [!seen] followed by any one byte, the first two operands of the
    condition hold and evaluating [Content[6]] panics with an index out
    of range instead of yielding false. *)
Theorem isValidSeenCommand_panics_on_short_content :
  isValidSeenCommand "!seen" = Panic "index out of range"
  /\ forall c : ascii,
       isValidSeenCommand ("!seen" +:+ String c "") = Panic "index out of range".
Proof. split; [reflexivity | intros c; reflexivity]. Qed.

Section PacketProtocol.

Variable env : Env.

Lemma fieldFor_In (names : list string) (key name : string) :
  fieldFor env names key = Some name -> In name names.
Proof.
  unfold fieldFor. destruct (find (String.eqb key) names) eqn:E.
  - intros [= <-]. now apply find_some in E.
  - intros H. now apply find_some in H.
Qed.

Lemma decodeMembers_cons {T : Type} names
    (set : T -> string -> json -> T * option error) m ms x :
  decodeMembers env names set (m :: ms) x
  = match fieldFor env names (fst m) with
    | None => decodeMembers env names set ms x
    | Some name =>
        match set x name (snd m) with
        | (x', None) => decodeMembers env names set ms x'
        | (x', Some e) =>
            fold_left
              (fun acc member =>
                 match fieldFor env names (fst member) with
                 | None => acc
                 | Some name =>
                     let '(x', e) := set (fst acc) name (snd member) in
                     (x', firstError (snd acc) e)
                 end) ms (x', Some e)
        end
    end.
Proof.
  unfold decodeMembers. simpl.
  destruct (fieldFor env names (fst m)); [|reflexivity].
  destruct (set x s (snd m)) as [x' [e|]]; reflexivity.
Qed.

Lemma decode_ping_members (time next : Z) (members : list (string * json)) :
  inInt64 time = true -> inInt64 next = true ->
  forallb (fun m => negb (selects env "time" m) || carries time m) members = true ->
  forallb (fun m => negb (selects env "next" m) || carries next m) members = true ->
  forall x,
    decodeMembers env pingEventFields setPingEvent members x
    = (PingEvent.mk
         (if existsb (selects env "time") members then time else PingEvent.Time x)
         (if existsb (selects env "next") members then next else PingEvent.Next x),
       None).
Proof.
  intros Ht Hn. induction members as [|[k v] ms IH]; intros Htime Hnext x.
  - destruct x; reflexivity.
  - simpl in Htime, Hnext.
    apply andb_prop in Htime as [Hk1 Htime], Hnext as [Hk2 Hnext].
    rewrite decodeMembers_cons. simpl existsb.
    unfold selects in Hk1, Hk2 |- *. simpl fst in *. simpl snd in *.
    destruct (fieldFor env pingEventFields k) as [name|] eqn:Hf.
    + apply fieldFor_In in Hf as [<-|[<-|[]]].
      * simpl in Hk1. unfold carries in Hk1. simpl in Hk1.
        destruct v; try discriminate. apply Z.eqb_eq in Hk1 as ->.
        unfold setPingEvent. simpl. rewrite Ht. rewrite IH by assumption.
        simpl. now destruct (existsb _ ms).
      * simpl in Hk2. unfold carries in Hk2. simpl in Hk2.
        destruct v; try discriminate. apply Z.eqb_eq in Hk2 as ->.
        unfold setPingEvent. simpl. rewrite Hn. rewrite IH by assumption.
        simpl. now destruct (existsb _ ms), (existsb _ ms).
    + simpl. now apply IH.
Qed.

(** C2.  A packet of type [ping-event] whose body is a ping-event in
    good form for [time] and [next] decodes to the [PingEvent] with that
    [Time] and [Next] and a nil error; a packet whose type is none of the
    registered ones yields the error "Unexpected packet type." together
    with the raw bytes, never one of the payload structs. *)
Theorem Payload_ping_event_and_unknown_type (p : PacketEvent.t) :
  (forall members time next,
      PacketEvent.Type_ p = PingEventType ->
      PacketEvent.Data p = Some (JObj members) ->
      wellFormedPing env members time next = true ->
      Payload env p = (PPingEvent (PingEvent.mk time next), None))
  /\ (hasType registered p = false ->
      Payload env p
      = (PRaw (PacketEvent.Data p), Some (ErrorsNew "Unexpected packet type."))).
Proof.
  split.
  - intros members time next Htype Hdata Hwf.
    unfold wellFormedPing in Hwf.
    apply andb_prop in Hwf as [Hwf Hnext].
    apply andb_prop in Hwf as [Hwf Htime].
    apply andb_prop in Hwf as [Hwf Hsome_next].
    apply andb_prop in Hwf as [Hwf Hsome_time].
    apply andb_prop in Hwf as [Hfits_time Hfits_next].
    unfold Payload. rewrite Htype, Hdata. simpl.
    rewrite (decode_ping_members time next) by assumption.
    now rewrite Hsome_time, Hsome_next.
  - unfold hasType, registered, Payload. simpl. intros H.
    repeat (apply orb_false_elim in H as [?H H]).
    now repeat match goal with
               | Heq : String.eqb _ _ = false |- _ => rewrite Heq; clear Heq
               end.
Qed.

End PacketProtocol.

(** C3, at inputs that break it.  [GetMessagePayload] returns the nil
    pointer, without a panic, for a send-event whose body is [null] and
    for a packet of another type; and since all three accessors drop the
    error of [Payload], a body that is no object comes back from each of
    them as the zero value of the struct. *)
Theorem typed_accessors_return_nil_and_zero_values :
  forall (env : Env) (id err : string),
    GetMessagePayload env (PacketEvent.mk id SendEventType (Some JNull) err) = None
    /\ GetMessagePayload env
         (PacketEvent.mk id PingEventType (Some (JObj [("time", JNum 1)])) err)
       = None
    /\ Payload env (PacketEvent.mk id SendEventType (Some (JNum 3)) err)
       = (PMessage Message.zero, Some (UnmarshalTypeError "number" "Message"))
    /\ GetMessagePayload env (PacketEvent.mk id SendEventType (Some (JNum 3)) err)
       = Some Message.zero
    /\ GetNickEventPayload env (PacketEvent.mk id NickEventType (Some (JNum 3)) err)
       = Ok NickEvent.zero
    /\ GetPresenceEventPayload env
         (PacketEvent.mk id JoinEventType (Some (JNum 3)) err)
       = Ok PresenceEvent.zero.
Proof. intros env id err. repeat split; try reflexivity. Qed.

(** C9, at an input that breaks it.  While the message-log store answers
    every call with the error [e], [MessageLogHandler] handles a
    send-event and a send-reply by calling the store and goes round its
    loop again with the room as it was: nothing is put on the error
    channel. *)
Theorem MessageLogHandler_drops_store_error :
  forall (env : Env) (e : error) (content : string),
    let w := faultyWorld e in
    snd (storeMsgLogEvent (room w) "m1"
           (MsgLogEvent.mk "" "agent:2" "carol" 1438000000 content)) = Some e
    /\ MessageLogHandler env w (Input (sendPacket SendEventType content)) = Continue w
    /\ MessageLogHandler env w (Input (sendPacket SendReplyType content)) = Continue w
    /\ errChan (room w) = [].
Proof. intros env e content. repeat split; reflexivity. Qed.

(** C6, at an input that breaks it.  A nick-event from the empty name to
    the empty name is not ignored: in a room where nobody is leaving the
    join handler announces that the empty name joined, and where the
    empty name is pending leave it removes it from the leaving-set; the
    join-event for the empty name, next to it, is ignored. *)
Theorem JoinEventHandler_acts_on_empty_nick :
  forall env : Env,
    JoinEventHandler env world0 (Input (nickPacket "" ""))
    = Continue (onRoom (fun r => SendText r "<  joined the room. >" "") world0)
    /\ JoinEventHandler env (onRoom (fun r => setUserLeaving r "") world0)
         (Input (nickPacket "" ""))
       = Continue world0
    /\ JoinEventHandler env world0 (Input (joinPacket "")) = Continue world0.
Proof. intros env. repeat split; try reflexivity. Qed.

(** ** Handler lifecycle *)

Section Lifecycle.

Variable env : Env.

Lemma runHandler_app (h : Handler) (before rest : list selected) :
  forall w w',
    runHandler h w before = Continue w' ->
    runHandler h w (before ++ rest) = runHandler h w' rest.
Proof.
  induction before as [|turn before IH]; intros w w' H; simpl in *.
  - now injection H as ->.
  - destruct (h w turn); try discriminate. now apply IH.
Qed.

Lemma quiet_refl (w : World) : quiet w w.
Proof. repeat split. Qed.

(** C7.  Each turn of a handler's loop is a [select] over the packet
    channel and the command channel, and whichever handler it is, taking
    the command "kill" makes the loop return with the world untouched:
    a handler that is still running after any turns returns at the
    "kill" that follows them and handles nothing that comes after. *)
Theorem kill_returns_from_every_handler (name : handlerName) :
  (forall w, handlerOf env name w (Cmd "kill") = Return w)
  /\ (forall w w' before after,
         runHandler (handlerOf env name) w before = Continue w' ->
         runHandler (handlerOf env name) w (before ++ Cmd "kill" :: after)
         = Return w').
Proof.
  assert (forall w, handlerOf env name w (Cmd "kill") = Return w) as Hkill
    by (intros w; destruct name; reflexivity).
  split; [exact Hkill|].
  intros w w' before after Hrun.
  rewrite (runHandler_app _ _ _ _ _ Hrun). simpl. now rewrite Hkill.
Qed.

(** C8.  A packet whose type is not one the handler reacts to changes
    nothing and the loop goes round again: no text or ping is sent, no
    error is reported, the leaving-set, the stores, the clock and the
    sleeping timers stay as they were.  For every handler but
    [DebugHandler] the world is the same altogether; [DebugHandler]
    writes a line to the logger when the packet carries a server error,
    whatever its type. *)
Theorem unrelated_packet_is_ignored (name : handlerName) (w : World)
    (p : PacketEvent.t) :
  hasType (reactsTo name) p = false ->
  exists w',
    handlerOf env name w (Input p) = Continue w'
    /\ quiet w w'
    /\ (name <> Debug_ -> w' = w).
Proof.
  unfold hasType. intros H.
  destruct name; simpl in H;
    repeat (apply orb_false_elim in H as [?H H]);
    cbn [handlerOf];
    try (match goal with
         | |- context [Debug_ <> Debug_] => fail 1
         | _ => exists w
         end;
         split; [|split; [apply quiet_refl | reflexivity]];
         match goal with
         | |- ?h _ _ _ = _ => unfold h
         end;
         repeat match goal with
                | Heq : String.eqb _ _ = false |- _ => rewrite Heq; clear Heq
                end;
         reflexivity).
  unfold DebugHandler. rewrite H0.
  destruct (String.eqb (PacketEvent.Error p) ""); simpl;
    eexists; (split; [reflexivity|]); (split; [|congruence]); repeat split.
Qed.

End Lifecycle.

(** ** Presence debounce *)

Section Debounce.

Variable env : Env.

Lemma isSome_eq (o : option string) (user : string) :
  isSome o user = true <-> o = Some user.
Proof.
  destruct o as [name|]; simpl.
  - rewrite String.eqb_eq. split; congruence.
  - split; discriminate.
Qed.

Lemma timesSent_SendText (text : string) (r : Room) (msg parent : string) :
  timesSent text (SendText r msg parent)
  = (timesSent text r + if String.eqb msg text then 1 else 0)%nat.
Proof.
  unfold timesSent, SendText. simpl.
  rewrite List.filter_app, List.length_app. simpl.
  now destruct (String.eqb msg text).
Qed.

Lemma timesSent_clearUserLeaving (text : string) (r : Room) (user : string) :
  timesSent text (clearUserLeaving r user) = timesSent text r.
Proof. reflexivity. Qed.

(** *** What one turn of each actor does *)

Lemma PartEventHandler_part (w : World) (p : PacketEvent.t) (user : string) :
  PacketEvent.Type_ p = PartEventType ->
  presenceName env p = Some user ->
  PartEventHandler env w (Input p)
  = Continue (spawn (onRoom (fun r => setUserLeaving r user) w)
                (clock w + partDelay) user).
Proof.
  unfold PartEventHandler, presenceName. intros -> H. simpl.
  destruct (GetPresenceEventPayload env p) as [data|]; [|discriminate].
  simpl. destruct (PresenceEvent.User_ data) as [u|]; [|discriminate].
  simpl in H. injection H as <-. reflexivity.
Qed.

Lemma PartTurn_inv (w w' : World) (p : PacketEvent.t) :
  step env w (PartTurn p) = Some w' ->
  w' = w
  \/ exists user,
       String.eqb (PacketEvent.Type_ p) PartEventType = true
       /\ presenceName env p = Some user
       /\ w' = spawn (onRoom (fun r => setUserLeaving r user) w)
                 (clock w + partDelay) user.
Proof.
  unfold step, PartEventHandler, presenceName.
  destruct (String.eqb (PacketEvent.Type_ p) PartEventType); simpl.
  - destruct (GetPresenceEventPayload env p) as [data|]; [|discriminate].
    simpl. destruct (PresenceEvent.User_ data) as [u|]; [|discriminate].
    simpl. intros [= <-]. right. now exists (User.Name u).
  - intros [= <-]. now left.
Qed.

Lemma JoinEventHandler_join (w : World) (p : PacketEvent.t) (user : string) :
  PacketEvent.Type_ p = JoinEventType ->
  presenceName env p = Some user ->
  JoinEventHandler env w (Input p)
  = Continue (if String.eqb user "" then w
              else onRoom (fun r => rejoin r user) w).
Proof.
  unfold JoinEventHandler, presenceName. intros -> H. simpl.
  destruct (GetPresenceEventPayload env p) as [data|]; [|discriminate].
  simpl. destruct (PresenceEvent.User_ data) as [u|]; [|discriminate].
  simpl in H. injection H as <-. simpl.
  now destruct (String.eqb (User.Name u) "").
Qed.

Lemma JoinEventHandler_nick (w : World) (p : PacketEvent.t) (user : string) :
  PacketEvent.Type_ p = NickEventType ->
  nickInName env p = Some user ->
  JoinEventHandler env w (Input p) = Continue (onRoom (fun r => rejoin r user) w).
Proof.
  unfold JoinEventHandler, nickInName. intros -> H. simpl.
  destruct (GetNickEventPayload env p) as [data|]; [|discriminate].
  simpl. destruct (String.eqb (NickEvent.From data) ""); [|discriminate].
  simpl. injection H as <-. reflexivity.
Qed.

Lemma JoinTurn_inv (w w' : World) (p : PacketEvent.t) :
  step env w (JoinTurn p) = Some w' ->
  w' = w
  \/ exists user,
       w' = onRoom (fun r => rejoin r user) w
       /\ ((String.eqb (PacketEvent.Type_ p) JoinEventType = true
            /\ presenceName env p = Some user)
           \/ (String.eqb (PacketEvent.Type_ p) NickEventType = true
               /\ nickInName env p = Some user)).
Proof.
  unfold step, JoinEventHandler, presenceName, nickInName.
  destruct (String.eqb (PacketEvent.Type_ p) JoinEventType) eqn:Hjoin; simpl.
  - destruct (GetPresenceEventPayload env p) as [data|]; [|discriminate].
    simpl. destruct (PresenceEvent.User_ data) as [u|]; [|discriminate].
    simpl. destruct (String.eqb (User.Name u) "").
    + intros [= <-]. now left.
    + intros [= <-]. right. exists (User.Name u). split; [reflexivity|].
      left. now split.
  - destruct (String.eqb (PacketEvent.Type_ p) NickEventType) eqn:Hnick; simpl.
    + destruct (GetNickEventPayload env p) as [data|]; [|discriminate].
      simpl. destruct (String.eqb (NickEvent.From data) ""); simpl.
      * intros [= <-]. right. exists (NickEvent.To data). split; [reflexivity|].
        right. now split.
      * intros [= <-]. now left.
    + intros [= <-]. now left.
Qed.

Lemma leaving_rejoin (r : Room) (user : string) :
  leaving (rejoin r user) = leaving r ∖ {[user]}.
Proof. unfold rejoin. now destruct (negb (isUserLeaving r user)). Qed.

Lemma timesSent_rejoin (r : Room) (user other : string) :
  timesSent (leftText other) (rejoin r user) = timesSent (leftText other) r.
Proof.
  unfold rejoin. rewrite timesSent_clearUserLeaving.
  destruct (negb (isUserLeaving r user)); [|reflexivity].
  rewrite timesSent_SendText.
  assert (String.eqb (joinedText user) (leftText other) = false) as ->.
  { apply String.eqb_neq. intros H. symmetry in H.
    now apply leftText_not_joinedText in H. }
  lia.
Qed.

Lemma partTimer_idle (r : Room) (user : string) :
  user ∉ leaving r \/ user = "" -> partTimer r user = r.
Proof.
  unfold partTimer, isUserLeaving. intros [H| ->].
  - now rewrite bool_decide_eq_false_2.
  - simpl. now rewrite andb_false_r.
Qed.

Lemma partTimer_fires (r : Room) (user : string) :
  user ∈ leaving r -> user <> "" ->
  partTimer r user = clearUserLeaving (SendText r (leftText user) "") user.
Proof.
  unfold partTimer, isUserLeaving. intros Hin Hne.
  rewrite bool_decide_eq_true_2 by assumption.
  apply String.eqb_neq in Hne. now rewrite Hne.
Qed.

Lemma partTimer_cases (r : Room) (user : string) :
  partTimer r user = r
  \/ partTimer r user = clearUserLeaving (SendText r (leftText user) "") user.
Proof. unfold partTimer. destruct (_ && _); auto. Qed.

Lemma partTimer_other (r : Room) (user other : string) :
  user <> other ->
  timesSent (leftText other) (partTimer r user) = timesSent (leftText other) r
  /\ (other ∈ leaving (partTimer r user) <-> other ∈ leaving r).
Proof.
  intros Hne. destruct (partTimer_cases r user) as [->| ->]; [easy|].
  rewrite timesSent_clearUserLeaving, timesSent_SendText.
  assert (String.eqb (leftText user) (leftText other) = false) as ->.
  { apply String.eqb_neq. intros H. exact (Hne (leftText_inj _ _ H)). }
  split; [lia|]. simpl. set_solver.
Qed.


(** *** Sleeping timers *)

Lemma sameSleeper_eq (a b : Z * string) : sameSleeper a b = true <-> a = b.
Proof.
  destruct a as [t u], b as [t' u']. unfold sameSleeper. simpl.
  rewrite andb_true_iff, Z.eqb_eq, String.eqb_eq. split.
  - now intros [-> ->].
  - now intros [= -> ->].
Qed.

Lemma filter_removeSleeper (user : string) (x : Z * string)
    (l : list (Z * string)) :
  List.filter (sleeperFor user) (removeSleeper x l)
  = if sleeperFor user x then removeSleeper x (List.filter (sleeperFor user) l)
    else List.filter (sleeperFor user) l.
Proof.
  induction l as [|y l IH]; simpl.
  - now destruct (sleeperFor user x).
  - destruct (sameSleeper x y) eqn:Hxy.
    + apply sameSleeper_eq in Hxy as <-.
      destruct (sleeperFor user x) eqn:Hx; [|reflexivity].
      simpl. now rewrite (proj2 (sameSleeper_eq x x) eq_refl).
    + simpl. rewrite IH.
      destruct (sleeperFor user y) eqn:Hy, (sleeperFor user x) eqn:Hx;
        simpl; try rewrite Hxy; reflexivity.
Qed.

Lemma awake_only_if_asleep (user : string) (t : Z) (l : list (Z * string)) :
  existsb (sameSleeper (t, user)) l = true
  <-> In (t, user) (List.filter (sleeperFor user) l).
Proof.
  rewrite existsb_exists, List.filter_In. split.
  - intros (y & Hin & Hy). apply sameSleeper_eq in Hy as <-.
    split; [assumption|]. apply String.eqb_refl.
  - intros [Hin _]. exists (t, user). split; [assumption|].
    now apply sameSleeper_eq.
Qed.

(** *** While the user is not pending leave *)

(** Once [user] is out of the leaving-set, or when the name is empty,
    no turn other than a part-event for [user] brings a leave
    announcement for [user] or puts [user] back. *)
Lemma step_while_present (user : string) (w w' : World) (a : action) :
  partFor env user a = false ->
  step env w a = Some w' ->
  user ∉ leaving (room w) \/ user = "" ->
  (user ∉ leaving (room w') \/ user = "") /\ leaves user w' = leaves user w.
Proof.
  intros Hpart Hstep Hcalm. destruct a as [p|p|d|t name].
  - apply PartTurn_inv in Hstep as [->|(name & Htype & Hname & ->)]; [easy|].
    simpl in Hpart. rewrite Htype, Hname in Hpart. simpl in Hpart.
    apply String.eqb_neq in Hpart.
    split; [|reflexivity]. destruct Hcalm as [Hout|]; [left|right; assumption].
    simpl. set_solver.
  - apply JoinTurn_inv in Hstep as [->|(name & -> & _)]; [easy|].
    unfold leaves, onRoom. cbn [room]. rewrite timesSent_rejoin, leaving_rejoin.
    split; [|reflexivity]. destruct Hcalm as [Hout|]; [left|right; assumption].
    set_solver.
  - simpl in Hstep. destruct (0 <=? d); [|discriminate].
    now injection Hstep as <-.
  - simpl in Hstep. destruct (_ && _); [|discriminate].
    injection Hstep as <-. unfold leaves. simpl.
    destruct (String.eqb name user) eqn:Hname.
    + apply String.eqb_eq in Hname as ->. now rewrite partTimer_idle.
    + apply String.eqb_neq in Hname.
      destruct (partTimer_other (room w) name user Hname) as [-> Hiff].
      split; [|reflexivity]. destruct Hcalm as [Hout|]; [left|right; assumption].
      now rewrite Hiff.
Qed.

Lemma run_while_present (user : string) (trace : list action) :
  forall w w',
    forallb (fun a => negb (partFor env user a)) trace = true ->
    run env w trace = Some w' ->
    user ∉ leaving (room w) \/ user = "" ->
    (user ∉ leaving (room w') \/ user = "") /\ leaves user w' = leaves user w.
Proof.
  induction trace as [|a trace IH]; intros w w' Hall Hrun Hcalm; simpl in *.
  - now injection Hrun as <-.
  - apply andb_prop in Hall as [Ha Hall]. apply negb_true_iff in Ha.
    destruct (step env w a) as [w1|] eqn:Hstep; [|discriminate].
    destruct (step_while_present user w w1 a Ha Hstep Hcalm) as [Hcalm1 <-].
    now apply IH.
Qed.




(** *** While the user is pending leave *)

Lemma filter_none {A : Type} (f : A -> bool) (l : list A) :
  forallb (fun x => negb (f x)) l = true -> List.filter f l = [].
Proof.
  induction l as [|x l IH]; simpl; [reflexivity|].
  intros H. apply andb_prop in H as [Hx Hl].
  apply negb_true_iff in Hx. rewrite Hx. now apply IH.
Qed.

(** While [user] is pending leave with one timer asleep, a turn that is
    no part-event, join-event or nick-in for [user] and no waking timer
    of [user] keeps all that, and brings no leave announcement for
    [user]. *)
Lemma step_while_pending (user : string) (due : Z) (w w' : World) (a : action) :
  (partFor env user a || joinFor env user a || wakeFor user a) = false ->
  step env w a = Some w' ->
  user ∈ leaving (room w) ->
  List.filter (sleeperFor user) (sleeping w) = [(due, user)] ->
  user ∈ leaving (room w')
  /\ List.filter (sleeperFor user) (sleeping w') = [(due, user)]
  /\ leaves user w' = leaves user w.
Proof.
  intros Ha Hstep Hin Hasleep.
  apply orb_false_elim in Ha as [Ha Hwake].
  apply orb_false_elim in Ha as [Hpart Hjoin].
  destruct a as [p|p|d|t name].
  - apply PartTurn_inv in Hstep as [->|(name & Htype & Hname & ->)]; [easy|].
    simpl in Hpart. rewrite Htype, Hname in Hpart. simpl in Hpart.
    unfold leaves, spawn, onRoom. cbn [room sleeping].
    rewrite List.filter_app. simpl. unfold sleeperFor at 2. simpl.
    rewrite Hpart, Hasleep. split; [set_solver|]. split; reflexivity.
  - apply JoinTurn_inv in Hstep as [->|(name & -> & Hfor)]; [easy|].
    assert (name <> user) as Hne.
    { unfold joinFor in Hjoin. apply orb_false_elim in Hjoin as [Hj Hn].
      simpl in Hj, Hn. apply String.eqb_neq.
      destruct Hfor as [[Htype Hname]|[Htype Hname]].
      - now rewrite Htype, Hname in Hj.
      - now rewrite Htype, Hname in Hn. }
    unfold leaves, onRoom. cbn [room sleeping].
    rewrite timesSent_rejoin, leaving_rejoin.
    split; [set_solver|]. now split.
  - simpl in Hstep. destruct (0 <=? d); [|discriminate].
    now injection Hstep as <-.
  - simpl in Hwake. simpl in Hstep. destruct (_ && _); [|discriminate].
    injection Hstep as <-. unfold leaves. cbn [room sleeping].
    assert (name <> user) as Hne by now apply String.eqb_neq.
    destruct (partTimer_other (room w) name user Hne) as [-> Hiff].
    rewrite filter_removeSleeper. unfold sleeperFor at 1. simpl.
    rewrite Hwake. split; [now apply Hiff|]. now split.
Qed.

Lemma run_while_pending (user : string) (due : Z) (trace : list action) :
  forall w w',
    forallb (fun a => negb (partFor env user a || joinFor env user a
                            || wakeFor user a)) trace = true ->
    run env w trace = Some w' ->
    user ∈ leaving (room w) ->
    List.filter (sleeperFor user) (sleeping w) = [(due, user)] ->
    user ∈ leaving (room w')
    /\ List.filter (sleeperFor user) (sleeping w') = [(due, user)]
    /\ leaves user w' = leaves user w.
Proof.
  induction trace as [|a trace IH]; intros w w' Hall Hrun Hin Hasleep;
    simpl in Hall, Hrun.
  - now injection Hrun as <-.
  - apply andb_prop in Hall as [Ha Hall]. apply negb_true_iff in Ha.
    destruct (step env w a) as [w1|] eqn:Hstep; [|discriminate].
    destruct (step_while_pending user due w w1 a Ha Hstep Hin Hasleep)
      as (Hin1 & Hasleep1 & <-).
    now apply IH.
Qed.

(** C5, as the code has it.  Let [user] have a non-empty name and no
    [partTimer] of an earlier part-event for [user] be asleep.  The part
    handler reacts to a part-event for [user] without a panic.  Take any
    turns after it with no join-event or nick-in for [user], no further
    part-event for [user], and the timer not yet awake.  No leave
    announcement for [user] is sent during them.  The timer can wake
    only at its own due time, five minutes after the part-event, and
    only once the clock has reached it.  When it wakes, [user] is still
    in the leaving-set at that moment, the one text sent is the leave
    announcement for [user], and [user] is out of the leaving-set; after
    that, as long as no new part-event for [user] is handled, the number
    of leave announcements for [user] stays at one more than before. *)
Theorem part_without_rejoin_announces_once (user : string) (w0 : World)
    (p : PacketEvent.t) :
  user <> "" ->
  partFor env user (PartTurn p) = true ->
  forallb (fun s => negb (sleeperFor user s)) (sleeping w0) = true ->
  let due := clock w0 + partDelay in
  partDelay = 300000000000
  /\ exists w1,
       step env w0 (PartTurn p) = Some w1
       /\ forall window w2,
            forallb (fun a => negb (partFor env user a || joinFor env user a
                                    || wakeFor user a)) window = true ->
            run env w1 window = Some w2 ->
            leaves user w2 = leaves user w0
            /\ (forall t, step env w2 (Wake t user) <> None ->
                          t = due /\ due <= clock w2)
            /\ (due <= clock w2 ->
                exists w3,
                  step env w2 (Wake due user) = Some w3
                  /\ (user ∈ leaving (room w2))
                  /\ sent (room w3) = sent (room w2) ++ [(leftText user, "")]
                  /\ (user ∉ leaving (room w3))
                  /\ forall rest w4,
                       forallb (fun a => negb (partFor env user a)) rest = true ->
                       run env w3 rest = Some w4 ->
                       leaves user w4 = S (leaves user w0)).
Proof.
  intros Hne Hpart Hstale due. split; [reflexivity|].
  simpl in Hpart. apply andb_prop in Hpart as [Htype Hname].
  apply String.eqb_eq in Htype. apply isSome_eq in Hname.
  eexists. unfold step at 1.
  rewrite (PartEventHandler_part w0 p user Htype Hname).
  split; [reflexivity|]. intros window w2 Hall Hrun.
  destruct (run_while_pending user due window _ w2 Hall Hrun)
    as (Hin & Hasleep & Hleaves).
  { unfold spawn, onRoom. cbn [room leaving setUserLeaving]. set_solver. }
  { unfold spawn, onRoom. cbn [sleeping].
    rewrite List.filter_app, (filter_none _ _ Hstale). simpl.
    unfold sleeperFor. simpl. now rewrite String.eqb_refl. }
  change (leaves user w2 = leaves user w0) in Hleaves.
  split; [assumption|]. split.
  - intros t Hstep. unfold step in Hstep.
    destruct (existsb (sameSleeper (t, user)) (sleeping w2)) eqn:Hex;
      [|now contradict Hstep].
    destruct (t <=? clock w2) eqn:Hle; [|now contradict Hstep].
    apply awake_only_if_asleep in Hex. rewrite Hasleep in Hex.
    destruct Hex as [[= ->]|[]]. split; [reflexivity|]. now apply Z.leb_le.
  - intros Hdue. eexists. unfold step at 1.
    assert (existsb (sameSleeper (due, user)) (sleeping w2) = true) as ->.
    { apply awake_only_if_asleep. rewrite Hasleep. now left. }
    apply Z.leb_le in Hdue. rewrite Hdue. cbn [andb].
    rewrite (partTimer_fires _ _ Hin Hne).
    split; [reflexivity|]. split; [assumption|]. split; [reflexivity|].
    split; [cbn [room leaving clearUserLeaving]; set_solver|].
    intros rest w4 Hrest Hrun4.
    destruct (run_while_present user rest _ w4 Hrest Hrun4) as [_ ->].
    { left. cbn [room leaving clearUserLeaving]. set_solver. }
    unfold leaves in *. cbn [room].
    rewrite timesSent_clearUserLeaving, timesSent_SendText, String.eqb_refl.
    rewrite Hleaves. lia.
Qed.

End Debounce.

(** ** The claims that fail as worded, at concrete inputs *)


(** C5 as the claim words it, for every part-event in every reachable
    world: bob leaves, comes back at once and leaves again two minutes
    later; the timer of the first part-event wakes at five minutes, finds
    bob leaving and announces it, three minutes after the part-event
    that it answers for. *)
Lemma stale_timer_announces_early :
  ~ (forall (user : string) (history : list action) (w0 : World)
            (p : PacketEvent.t),
        run testEnv world0 history = Some w0 ->
        user <> "" ->
        partFor testEnv user (PartTurn p) = true ->
        exists w1,
          step testEnv w0 (PartTurn p) = Some w1
          /\ forall window w2,
               forallb (fun a => negb (joinFor testEnv user a)) window = true ->
               run testEnv w1 window = Some w2 ->
               clock w2 < clock w0 + partDelay ->
               leaves user w2 = leaves user w0).
Proof.
  intros H.
  destruct (H "bob"
              [PartTurn (partPacket "bob"); JoinTurn (joinPacket "bob");
               Elapse (2 * Minute)]
              staleWorld (partPacket "bob") eq_refl ltac:(discriminate) eq_refl)
    as (w1 & Hstep & Hwindow).
  injection Hstep as <-.
  specialize (Hwindow [Elapse (3 * Minute); Wake (5 * Minute) "bob"]
                _ eq_refl eq_refl eq_refl).
  discriminate Hwindow.
Qed.

(** ** The theorems at concrete inputs *)

Lemma Payload_ping_event_and_unknown_type_witness :
  let body := [("time", JNum 1438000000); ("next", JNum 1438000030)] in
  wellFormedPing testEnv body 1438000000 1438000030 = true
  /\ Payload testEnv (PacketEvent.mk "" PingEventType (Some (JObj body)) "")
     = (PPingEvent (PingEvent.mk 1438000000 1438000030), None)
  /\ hasType registered (PacketEvent.mk "" NickReplyType (Some (JObj body)) "")
     = false
  /\ Payload testEnv (PacketEvent.mk "" NickReplyType (Some (JObj body)) "")
     = (PRaw (Some (JObj body)), Some (ErrorsNew "Unexpected packet type.")).
Proof.
  intros body. split; [reflexivity|]. split.
  - apply (proj1 (Payload_ping_event_and_unknown_type testEnv
                    (PacketEvent.mk "" PingEventType (Some (JObj body)) ""))
             body 1438000000 1438000030);
      reflexivity.
  - split; [reflexivity|].
    apply (proj2 (Payload_ping_event_and_unknown_type testEnv
                    (PacketEvent.mk "" NickReplyType (Some (JObj body)) "")));
      reflexivity.
Defined.

Lemma kill_returns_from_every_handler_witness :
  let before := [Input (sendPacket SendEventType "!ping")] in
  let ponged := onRoom (fun r => SendText r "pong!" "m1") world0 in
  runHandler (PingCommandHandler testEnv) world0 before = Continue ponged
  /\ runHandler (PingCommandHandler testEnv) world0
       (before ++ Cmd "kill" :: [Input (sendPacket SendEventType "!ping")])
     = Return ponged.
Proof.
  intros before ponged. split; [reflexivity|].
  apply (proj2 (kill_returns_from_every_handler testEnv PingCommand_)).
  reflexivity.
Defined.

Lemma unrelated_packet_is_ignored_witness :
  hasType (reactsTo PartEvent_) (joinPacket "alice") = false
  /\ exists w',
       PartEventHandler testEnv world0 (Input (joinPacket "alice")) = Continue w'
       /\ quiet world0 w'
       /\ (PartEvent_ <> Debug_ -> w' = world0).
Proof.
  split; [reflexivity|].
  apply (unrelated_packet_is_ignored testEnv PartEvent_ world0 (joinPacket "alice")).
  reflexivity.
Defined.


Lemma part_without_rejoin_announces_once_witness :
  "alice" <> ""
  /\ partFor testEnv "alice" (PartTurn (partPacket "alice")) = true
  /\ forallb (fun s => negb (sleeperFor "alice" s)) (sleeping world0) = true
  /\ exists w1,
       step testEnv world0 (PartTurn (partPacket "alice")) = Some w1
       /\ forall window w2,
            forallb (fun a => negb (partFor testEnv "alice" a
                                    || joinFor testEnv "alice" a
                                    || wakeFor "alice" a)) window = true ->
            run testEnv w1 window = Some w2 ->
            leaves "alice" w2 = leaves "alice" world0
            /\ (forall t, step testEnv w2 (Wake t "alice") <> None ->
                          t = clock world0 + partDelay
                          /\ clock world0 + partDelay <= clock w2)
            /\ (clock world0 + partDelay <= clock w2 ->
                exists w3,
                  step testEnv w2 (Wake (clock world0 + partDelay) "alice")
                  = Some w3
                  /\ ("alice" ∈ leaving (room w2))
                  /\ sent (room w3)
                     = sent (room w2) ++ [(leftText "alice", "")]
                  /\ ("alice" ∉ leaving (room w3))
                  /\ forall rest w4,
                       forallb (fun a => negb (partFor testEnv "alice" a)) rest
                       = true ->
                       run testEnv w3 rest = Some w4 ->
                       leaves "alice" w4 = S (leaves "alice" world0)).
Proof.
  split; [discriminate|]. split; [reflexivity|]. split; [reflexivity|].
  apply (part_without_rejoin_announces_once testEnv "alice" world0
           (partPacket "alice")); [discriminate | reflexivity | reflexivity].
Defined.

(** * Further properties of the code *)

(** ** The seen command *)

Lemma Split_nonempty (s : string) (sep : ascii) : Split s sep <> [].
Proof.
  destruct s as [|c s]; simpl; [discriminate|].
  destruct (Ascii.eqb c sep); [discriminate|].
  destruct (Split s sep); discriminate.
Qed.

(** [strings.Split] yields one piece more than there are separators. *)
Lemma Split_length (s : string) (sep : ascii) :
  List.length (Split s sep) = S (countByte sep s).
Proof.
  induction s as [|c s IH]; simpl; [reflexivity|].
  destruct (Ascii.eqb c sep); simpl.
  - now rewrite IH.
  - destruct (Split s sep) eqn:E; simpl in *; [discriminate|assumption].
Qed.

Lemma Split_no_sep (s : string) (sep : ascii) :
  countByte sep s = 0%nat -> Split s sep = [s].
Proof.
  induction s as [|c s IH]; simpl; [reflexivity|].
  destruct (Ascii.eqb c sep); [discriminate|].
  intros H. now rewrite IH.
Qed.

Lemma substring_all (s : string) : substring 0 (String.length s) s = s.
Proof. induction s as [|c s IH]; simpl; [reflexivity | now rewrite IH]. Qed.

Lemma get_none_iff (s : string) (n : nat) :
  String.get n s = None <-> (String.length s <= n)%nat.
Proof.
  revert n. induction s as [|c s IH]; intros n; simpl.
  - split; [lia | reflexivity].
  - destruct n as [|n]; [split; [discriminate | lia]|].
    rewrite IH. lia.
Qed.

(** X1.  [isValidSeenCommand] in full.  Content that does not begin with
    [!seen] is rejected.  Content that does and has fewer than seven
    bytes panics at [Content[6]].  Any longer content is accepted exactly
    when its byte at index 6 is [@] and it holds exactly one space,
    wherever that space is; the byte at index 5 is never looked at. *)
Theorem isValidSeenCommand_decides (content : string) :
  isValidSeenCommand content
  = if negb (String.prefix "!seen" content) then Ok false
    else if (String.length content <? 7)%nat then Panic "index out of range"
    else Ok (match String.get 6 content with
             | Some c => Ascii.eqb c "@"%char
             | None => false
             end && (countByte " "%char content =? 1)%nat).
Proof.
  unfold isValidSeenCommand.
  change 5%nat with (String.length "!seen") at 1 2.
  rewrite guarded_slice_is_prefix.
  destruct (String.prefix "!seen" content); [|reflexivity]. simpl negb. cbn iota.
  unfold index. destruct (String.get 6 content) as [c|] eqn:Hget.
  - assert ((String.length content <? 7)%nat = false) as ->.
    { apply Nat.ltb_ge. destruct (Nat.le_gt_cases 7 (String.length content)) as [H|H];
        [assumption|].
      assert (String.get 6 content = None) by (apply get_none_iff; lia). congruence. }
    now rewrite Split_length.
  - apply get_none_iff in Hget.
    assert ((String.length content <? 7)%nat = true) as ->
      by (apply Nat.ltb_lt; lia).
    reflexivity.
Qed.


Lemma seen_query_unfold (name : string) :
  "!seen @" +:+ name
  = String "!" (String "s" (String "e" (String "e" (String "n"
      (String " " (String "@" name)))))).
Proof. reflexivity. Qed.

Section SeenCommand.

Variable env : Env.

Lemma SeenCommandHandler_query (w : World) (p : PacketEvent.t)
    (data : Message.t) (name : string) :
  PacketEvent.Type_ p = SendEventType ->
  GetMessagePayload env p = Some data ->
  Message.Content data = "!seen @" +:+ name ->
  countByte " "%char name = 0%nat ->
  TrimSpace env (Message.Content data) = Message.Content data ->
  SeenCommandHandler env w (Input p)
  = match retrieveSeen (room w) name with
    | (_, Some err) => Return (onRoom (fun r => reportError r err) w)
    | (None, None) =>
        Continue (onRoom (fun r =>
          SendText r "User has not been seen yet." (Message.ID data)) w)
    | (Some lastSeen, None) =>
        Continue (onRoom (fun r =>
          SendText r
            ("Seen "
             +:+ formatInt env
                   (hoursOf env (clock w - Atoi env lastSeen * 1000000000))
             +:+ " hours ago.")
            (Message.ID data)) w)
    end.
Proof.
  intros Htype Hdata Hcontent Hname Htrim.
  unfold SeenCommandHandler. rewrite Htype, Hdata. simpl.
  rewrite Htrim, Hcontent, seen_query_unfold.
  unfold isValidSeenCommand. simpl.
  rewrite (Split_no_sep name " "%char Hname). simpl.
  unfold sliceFrom. simpl. rewrite Nat.sub_0_r, substring_all.
  destruct (retrieveSeen (room w) name) as [[lastSeen|] [err|]]; reflexivity.
Qed.

(** X2.  The seen query.  On a send-event whose message has the content
    [!seen @] followed by a name without a space, and which
    [strings.TrimSpace] leaves as it is, [SeenCommandHandler] does not
    panic and asks the seen store for exactly that name: a store error
    is reported and ends the handler, a missing entry is answered with
    "User has not been seen yet.", an entry with the hours since the
    stored time; each answer is a reply to the message asked in. *)
Theorem SeenCommandHandler_answers_query (w : World) (p : PacketEvent.t)
    (data : Message.t) (name : string) :
  PacketEvent.Type_ p = SendEventType ->
  GetMessagePayload env p = Some data ->
  Message.Content data = "!seen @" +:+ name ->
  countByte " "%char name = 0%nat ->
  TrimSpace env (Message.Content data) = Message.Content data ->
  SeenCommandHandler env w (Input p)
  = match retrieveSeen (room w) name with
    | (_, Some err) => Return (onRoom (fun r => reportError r err) w)
    | (None, None) =>
        Continue (onRoom (fun r =>
          SendText r "User has not been seen yet." (Message.ID data)) w)
    | (Some lastSeen, None) =>
        Continue (onRoom (fun r =>
          SendText r
            ("Seen "
             +:+ formatInt env
                   (hoursOf env (clock w - Atoi env lastSeen * 1000000000))
             +:+ " hours ago.")
            (Message.ID data)) w)
    end.
Proof. apply SeenCommandHandler_query. Qed.


End SeenCommand.

(** ** Link titles *)

Section LinkTitles.

Variable env : Env.

Lemma extract_inside_title (mid rest : list token) (text : string) :
  forallb noText mid = true ->
  forall depth,
    extractTitleFromTree env (S depth) (mid ++ TextToken text :: rest)
    = (let title := TrimSpace env text in
       if String.eqb title "Imgur" then "" else title).
Proof.
  induction mid as [|t mid IH]; intros Hmid depth; [reflexivity|].
  simpl in Hmid. apply andb_prop in Hmid as [Ht Hmid].
  destruct t as [|other|name|]; try discriminate; simpl.
  - destruct (String.eqb name "title"); now apply IH.
  - now apply IH.
Qed.

Lemma extract_before_title (pre rest : list token) :
  forallb beforeTitle pre = true ->
  extractTitleFromTree env 0 (pre ++ rest) = extractTitleFromTree env 0 rest.
Proof.
  induction pre as [|t pre IH]; intros Hpre; [reflexivity|].
  simpl in Hpre. apply andb_prop in Hpre as [Ht Hpre].
  destruct t as [|text|name|]; try discriminate; simpl.
  - now apply IH.
  - simpl in Ht. apply negb_true_iff in Ht. rewrite Ht. now apply IH.
  - now apply IH.
Qed.

Lemma extract_without_title (z : list token) :
  forallb (fun t => match t with
                    | StartTagToken name => negb (String.eqb name "title")
                    | _ => true
                    end) z = true ->
  extractTitleFromTree env 0 z = "".
Proof.
  induction z as [|t z IH]; intros Hz; [reflexivity|].
  simpl in Hz. apply andb_prop in Hz as [Ht Hz].
  destruct t as [|text|name|]; simpl; try now apply IH.
  - reflexivity.
  - apply negb_true_iff in Ht. rewrite Ht. now apply IH.
Qed.

(** X4.  What [extractTitleFromTree] takes for the title: the first text
    token that comes after the first start tag named [title], trimmed,
    whatever tags stand between the two (end tags do not close the
    title), and the empty string when that text is "Imgur".  A page cut
    off before, or with no such start tag at all, gives the empty
    string. *)
Theorem extractTitleFromTree_first_text_after_title :
  (forall (pre mid rest : list token) (text : string),
      forallb beforeTitle pre = true ->
      forallb noText mid = true ->
      extractTitleFromTree env 0
        (pre ++ StartTagToken "title" :: mid ++ TextToken text :: rest)
      = (let title := TrimSpace env text in
         if String.eqb title "Imgur" then "" else title))
  /\ (forall (pre rest : list token),
         forallb beforeTitle pre = true ->
         extractTitleFromTree env 0 (pre ++ ErrorToken :: rest) = "")
  /\ (forall z : list token,
         forallb (fun t => match t with
                           | StartTagToken name => negb (String.eqb name "title")
                           | _ => true
                           end) z = true ->
         extractTitleFromTree env 0 z = "").
Proof.
  split; [|split].
  - intros pre mid rest text Hpre Hmid.
    rewrite (extract_before_title pre _ Hpre). simpl.
    now apply extract_inside_title.
  - intros pre rest Hpre. now rewrite (extract_before_title pre _ Hpre).
  - exact extract_without_title.
Qed.

Lemma replyFirstTitle_skips (r : Room) (skipped rest : list string)
    (parent : string) :
  forallb (fun url => unusable (getLinkTitle env (withScheme url))) skipped = true ->
  replyFirstTitle env r (skipped ++ rest) parent = replyFirstTitle env r rest parent.
Proof.
  induction skipped as [|url skipped IH]; intros H; [reflexivity|].
  simpl in H. apply andb_prop in H as [Hurl H].
  simpl. unfold withScheme in Hurl.
  destruct (getLinkTitle env _) as [title [err|]]; [now apply IH|].
  simpl in Hurl. rewrite Hurl. simpl. now apply IH.
Qed.

(** X5.  Which link [LinkTitleHandler] answers with.  URLs whose fetch
    fails, whose status is not 200 or whose title is empty are passed
    over; the first URL with a title is answered with "Link title: " and
    that title, and no URL after it is fetched for a reply.  When no URL
    matched or none has a title, nothing is sent.  A page that answers
    with a status other than 200 never has a title. *)
Theorem replyFirstTitle_first_usable_wins (r : Room) (parent : string) :
  (forall (skipped rest : list string) (url title : string),
      forallb (fun u => unusable (getLinkTitle env (withScheme u))) skipped = true ->
      getLinkTitle env (withScheme url) = (title, None) ->
      title <> "" ->
      replyFirstTitle env r (skipped ++ url :: rest) parent
      = SendText r ("Link title: " +:+ title) parent)
  /\ (forall urls : list string,
         forallb (fun u => unusable (getLinkTitle env (withScheme u))) urls = true ->
         replyFirstTitle env r urls parent = r)
  /\ (forall (url : string) (status : Z) (body : list token),
         httpGet env url = inr (status, body) ->
         status <> 200 ->
         unusable (getLinkTitle env url) = true).
Proof.
  split; [|split].
  - intros skipped rest url title Hskipped Hfetch Htitle.
    rewrite (replyFirstTitle_skips r skipped _ parent Hskipped). simpl.
    fold (withScheme url). rewrite Hfetch.
    apply String.eqb_neq in Htitle. now rewrite Htitle.
  - intros urls Hall.
    rewrite <- (app_nil_r urls). now rewrite (replyFirstTitle_skips r urls [] parent).
  - intros url status body Hget Hstatus. unfold getLinkTitle. rewrite Hget.
    apply Z.eqb_neq in Hstatus. now rewrite Hstatus.
Qed.

End LinkTitles.

(** ** Payloads and accessors *)

Section Payloads.

Variable env : Env.

Lemma Unmarshal_dynamicType (data : RawMessage) (target : payload) :
  dynamicType target <> "json.RawMessage" -> dynamicType target <> "nil" ->
  match data with
  | Some JNull => Unmarshal env data target = (PNil, None)
  | None => Unmarshal env data target = (target, Some SyntaxError)
  | Some _ => dynamicType (fst (Unmarshal env data target)) = dynamicType target
  end.
Proof.
  intros Hraw Hnil.
  destruct data as [v|]; [|reflexivity].
  destruct v; try reflexivity;
    destruct target; try (now contradict Hraw); try (now contradict Hnil);
    unfold Unmarshal;
    match goal with
    | |- context [decodeStruct ?e ?g ?n ?s ?v ?x] =>
        destruct (decodeStruct e g n s v x)
    end; reflexivity.
Qed.

Lemma Payload_allocated (p : PacketEvent.t) :
  match allocated (PacketEvent.Type_ p) with
  | None =>
      Payload env p
      = (PRaw (PacketEvent.Data p), Some (ErrorsNew "Unexpected packet type."))
  | Some type =>
      match PacketEvent.Data p with
      | Some JNull => Payload env p = (PNil, None)
      | None => dynamicType (fst (Payload env p)) = type
                /\ snd (Payload env p) = Some SyntaxError
      | Some _ => dynamicType (fst (Payload env p)) = type
      end
  end.
Proof.
  unfold allocated, Payload.
  repeat match goal with
         | |- context [if ?b then _ else _] => destruct b
         end;
    try reflexivity;
    match goal with
    | |- context [Unmarshal env ?d ?t] =>
        let H := fresh in
        assert (H := Unmarshal_dynamicType d t ltac:(discriminate) ltac:(discriminate));
        destruct d as [[]|]; simpl in H |- *; try rewrite H; auto
    end.
Qed.


Lemma GetMessagePayload_nil (p : PacketEvent.t) :
  GetMessagePayload env p = None
  <-> allocated (PacketEvent.Type_ p) <> Some "*Message"
      \/ PacketEvent.Data p = Some JNull.
Proof.
  unfold GetMessagePayload. assert (Hp := Payload_allocated p).
  destruct (allocated (PacketEvent.Type_ p)) as [type|] eqn:Halloc.
  - assert (PacketEvent.Data p = Some JNull /\ Payload env p = (PNil, None)
            \/ PacketEvent.Data p <> Some JNull
               /\ dynamicType (fst (Payload env p)) = type) as [[Hnull Hpay]|[Hnull Hdyn]].
    { destruct (PacketEvent.Data p) as [[]|];
        first [ left; split; [reflexivity | exact Hp]
              | right; split; [discriminate | first [exact Hp | exact (proj1 Hp)]] ]. }
    + rewrite Hpay. simpl. tauto.
    + destruct (fst (Payload env p)); simpl in Hdyn; subst type;
        (split;
         [ intros H; first [discriminate H | left; discriminate]
         | intros [H|H]; first [reflexivity | congruence] ]).
  - rewrite Hp. simpl. split; [intros _; left; discriminate | reflexivity].
Qed.

Lemma GetNickEventPayload_ok (p : PacketEvent.t) :
  (exists data, GetNickEventPayload env p = Ok data)
  <-> allocated (PacketEvent.Type_ p) = Some "*NickEvent"
      /\ PacketEvent.Data p <> Some JNull.
Proof.
  unfold GetNickEventPayload. assert (Hp := Payload_allocated p).
  destruct (allocated (PacketEvent.Type_ p)) as [type|] eqn:Halloc.
  - assert (PacketEvent.Data p = Some JNull /\ Payload env p = (PNil, None)
            \/ PacketEvent.Data p <> Some JNull
               /\ dynamicType (fst (Payload env p)) = type) as [[Hnull Hpay]|[Hnull Hdyn]].
    { destruct (PacketEvent.Data p) as [[]|];
        first [ left; split; [reflexivity | exact Hp]
              | right; split; [discriminate | first [exact Hp | exact (proj1 Hp)]] ]. }
    + rewrite Hpay. simpl. split; [intros [data H]; discriminate H | tauto].
    + destruct (fst (Payload env p)); simpl in Hdyn; subst type;
        (split;
         [ intros [data H]; first [discriminate H | split; [reflexivity|assumption]]
         | intros [H _]; first [discriminate H | eexists; reflexivity] ]).
  - rewrite Hp. simpl. split; [intros [data H]; discriminate H | intros [H _]; discriminate H].
Qed.

Lemma GetPresenceEventPayload_ok (p : PacketEvent.t) :
  (exists data, GetPresenceEventPayload env p = Ok data)
  <-> allocated (PacketEvent.Type_ p) = Some "*PresenceEvent"
      /\ PacketEvent.Data p <> Some JNull.
Proof.
  unfold GetPresenceEventPayload. assert (Hp := Payload_allocated p).
  destruct (allocated (PacketEvent.Type_ p)) as [type|] eqn:Halloc.
  - assert (PacketEvent.Data p = Some JNull /\ Payload env p = (PNil, None)
            \/ PacketEvent.Data p <> Some JNull
               /\ dynamicType (fst (Payload env p)) = type) as [[Hnull Hpay]|[Hnull Hdyn]].
    { destruct (PacketEvent.Data p) as [[]|];
        first [ left; split; [reflexivity | exact Hp]
              | right; split; [discriminate | first [exact Hp | exact (proj1 Hp)]] ]. }
    + rewrite Hpay. simpl. split; [intros [data H]; discriminate H | tauto].
    + destruct (fst (Payload env p)); simpl in Hdyn; subst type;
        (split;
         [ intros [data H]; first [discriminate H | split; [reflexivity|assumption]]
         | intros [H _]; first [discriminate H | eexists; reflexivity] ]).
  - rewrite Hp. simpl. split; [intros [data H]; discriminate H | intros [H _]; discriminate H].
Qed.

Lemma allocated_hasType (type : PacketType) :
  (allocated type = Some "*Message"
   <-> existsb (String.eqb type) [SendEventType; SendReplyType] = true)
  /\ (allocated type = Some "*NickEvent"
      <-> existsb (String.eqb type) [NickEventType] = true)
  /\ (allocated type = Some "*PresenceEvent"
      <-> existsb (String.eqb type) [JoinEventType; PartEventType] = true).
Proof.
  unfold allocated. simpl.
  repeat match goal with
         | |- context [String.eqb type ?b] =>
             destruct (String.eqb_spec type b) as [->|?]; simpl
         end;
    repeat split; intros; congruence.
Qed.

(** X7.  When the typed accessors fail, exactly.  [GetMessagePayload]
    returns the nil pointer exactly when the type tag is neither
    send-event nor send-reply or the data is the JSON [null];
    [GetNickEventPayload] returns, rather than panics, exactly when the
    tag is nick-event and the data is not [null];
    [GetPresenceEventPayload] exactly when the tag is join-event or
    part-event and the data is not [null].  Data that is no JSON text or
    of the wrong shape makes none of them fail. *)
Theorem typed_accessors_fail_exactly (p : PacketEvent.t) :
  (GetMessagePayload env p = None
   <-> hasType [SendEventType; SendReplyType] p = false
       \/ PacketEvent.Data p = Some JNull)
  /\ ((exists data, GetNickEventPayload env p = Ok data)
      <-> hasType [NickEventType] p = true /\ PacketEvent.Data p <> Some JNull)
  /\ ((exists data, GetPresenceEventPayload env p = Ok data)
      <-> hasType [JoinEventType; PartEventType] p = true
          /\ PacketEvent.Data p <> Some JNull).
Proof.
  rewrite GetMessagePayload_nil, GetNickEventPayload_ok, GetPresenceEventPayload_ok.
  unfold hasType.
  destruct (allocated_hasType (PacketEvent.Type_ p)) as (-> & -> & ->).
  rewrite not_true_iff_false. tauto.
Qed.

End Payloads.

(** ** Handlers on unusual packets *)

Section Robustness.

Variable env : Env.

Lemma Payload_null (p : PacketEvent.t) :
  hasType registered p = true ->
  PacketEvent.Data p = Some JNull ->
  Payload env p = (PNil, None).
Proof.
  unfold hasType, registered, Payload. simpl. intros Htype ->.
  repeat match goal with
         | |- context [String.eqb ?a ?b] => destruct (String.eqb a b); simpl in *
         end; try reflexivity; discriminate.
Qed.

Lemma hasType_registered (name : handlerName) (p : PacketEvent.t) :
  hasType (reactsTo name) p = true -> hasType registered p = true.
Proof.
  unfold hasType, registered. destruct name; simpl;
    repeat match goal with
           | |- context [String.eqb ?a ?b] => destruct (String.eqb a b); simpl
           end; auto.
Qed.

(** X8.  A packet of a type the handler reacts to, with the JSON [null]
    for data, stops ten of the twelve handlers: the seven that read a
    message panic on the nil pointer that [GetMessagePayload] returns,
    the nick, part and join handlers panic in their accessor,
    [PingEventHandler] reports that it could not assert the payload and
    returns; only [DebugHandler] goes on. *)
Theorem null_data_stops_handlers (name : handlerName) (w : World)
    (p : PacketEvent.t) :
  hasType (reactsTo name) p = true ->
  PacketEvent.Data p = Some JNull ->
  match name with
  | PingEvent_ =>
      handlerOf env name w (Input p)
      = Return (onRoom (fun r => reportError r
                  (ErrorsNew "Could not assert payload as *PingEvent.")) w)
  | Debug_ => exists w', handlerOf env name w (Input p) = Continue w' /\ quiet w w'
  | NickChange_ =>
      handlerOf env name w (Input p)
      = Crash w "Failed to assert payload as *NickEvent"
  | PartEvent_ =>
      handlerOf env name w (Input p)
      = Crash w "Failed to assert payload as *PresenceEvent"
  | JoinEvent_ =>
      handlerOf env name w (Input p)
      = Crash w (if String.eqb (PacketEvent.Type_ p) JoinEventType
                 then "Failed to assert payload as *PresenceEvent"
                 else "Failed to assert payload as *NickEvent")
  | _ =>
      handlerOf env name w (Input p)
      = Crash w "invalid memory address or nil pointer dereference"
  end.
Proof.
  intros Htype Hnull.
  assert (Hpay := Payload_null p (hasType_registered name p Htype) Hnull).
  unfold hasType in Htype.
  destruct name; simpl in Htype; cbn [handlerOf];
    match goal with
    | |- context [?h env w (Input p)] => unfold h
    end;
    unfold GetMessagePayload, GetNickEventPayload, GetPresenceEventPayload;
    rewrite ?Hpay;
    repeat match goal with
           | H : (_ || _) = true |- _ => apply orb_prop in H as [H|H]
           end;
    try discriminate Htype;
    try (rewrite Htype; simpl; reflexivity).
  - rewrite Htype. destruct (String.eqb (PacketEvent.Error p) ""); simpl;
      eexists; (split; [reflexivity|]); repeat split.
  - apply String.eqb_eq in Htype. rewrite Htype. reflexivity.
  - apply String.eqb_eq in Htype. rewrite Htype. reflexivity.
Qed.

(** X9.  [PingEventHandler] never panics.  Whatever the packet, it either
    ignores it, or answers a decoded ping-event with one ping-reply
    carrying the event's time and goes on, or reports one error and
    returns. *)
Theorem PingEventHandler_never_panics (w : World) (p : PacketEvent.t) :
  PingEventHandler env w (Input p) = Continue w
  \/ (exists data,
        Payload env p = (PPingEvent data, None)
        /\ PingEventHandler env w (Input p)
           = Continue (onRoom (fun r => sendPing r (PingEvent.Time data)) w))
  \/ (exists err,
        PingEventHandler env w (Input p)
        = Return (onRoom (fun r => reportError r err) w)).
Proof.
  unfold PingEventHandler.
  destruct (String.eqb (PacketEvent.Type_ p) PingEventType); simpl; [|now left].
  destruct (Payload env p) as [pl [err|]].
  - right. right. exists err. destruct pl; reflexivity.
  - destruct pl; try (right; right; eexists; reflexivity).
    right. left. eexists. split; reflexivity.
Qed.

(** X10.  [DebugHandler] never stops on a packet.  Whatever the packet,
    bounce-events included, it goes round its loop again, having at most
    written to the logger: nothing is sent, nothing is reported on the
    error channel, the leaving-set and the stores are untouched. *)
Theorem DebugHandler_only_logs (w : World) (p : PacketEvent.t) :
  exists w', DebugHandler env w (Input p) = Continue w' /\ quiet w w'.
Proof.
  unfold DebugHandler.
  destruct (String.eqb (PacketEvent.Error p) "");
    destruct (String.eqb (PacketEvent.Type_ p) BounceEventType); simpl;
    try (eexists; split; [reflexivity | repeat split]);
    destruct (Payload env p) as [pl [err|]];
    try (eexists; split; [reflexivity | repeat split]);
    destruct pl; eexists; (split; [reflexivity | repeat split]).
Qed.

(** X11.  A nick-event is announced by at most one handler.
    [NickChangeHandler] and [JoinEventHandler] both receive it; they
    panic on the same packets, and when they do not, the first sends its
    text only if [from] and [to] are both non-empty and the second sends
    its text only if [from] is empty, so never both. *)
Theorem nick_event_announced_once (w : World) (p : PacketEvent.t) :
  PacketEvent.Type_ p = NickEventType ->
  (exists msg,
      NickChangeHandler env w (Input p) = Crash w msg
      /\ JoinEventHandler env w (Input p) = Crash w msg)
  \/ (exists w1 w2,
        NickChangeHandler env w (Input p) = Continue w1
        /\ JoinEventHandler env w (Input p) = Continue w2
        /\ (w1 = w \/ sent (room w2) = sent (room w))).
Proof.
  intros Htype. unfold NickChangeHandler, JoinEventHandler. rewrite Htype. simpl.
  destruct (GetNickEventPayload env p) as [data|msg]; simpl.
  - right. destruct (String.eqb (NickEvent.From data) ""); simpl.
    + do 2 eexists. split; [reflexivity|]. split; [reflexivity|]. now left.
    + destruct (String.eqb (NickEvent.To data) "");
        do 2 eexists; (split; [reflexivity|]); (split; [reflexivity|]); auto.
  - left. now exists msg.
Qed.

End Robustness.

(** ** Presence bodies *)

Section PresenceBodies.

Variable env : Env.

Lemma setPresenceEvent_user (x : PresenceEvent.t) (name : string) (v : json) :
  PresenceEvent.User_ (fst (setPresenceEvent x name v)) = None
  <-> PresenceEvent.User_ x = None /\ String.eqb name "session_id" = true.
Proof.
  unfold setPresenceEvent. destruct (String.eqb name "session_id").
  - destruct (storeString _ v). simpl. tauto.
  - destruct (setUser _ name v). simpl. split; [discriminate | intros [_ H]; discriminate H].
Qed.

Lemma presence_user_allocated (members : list (string * json)) :
  forall x,
    PresenceEvent.User_
      (fst (decodeMembers env presenceEventFields setPresenceEvent members x))
    = None
    <-> PresenceEvent.User_ x = None /\ existsb (userMember env) members = false.
Proof.
  unfold decodeMembers.
  assert (forall acc,
             PresenceEvent.User_
               (fst (fold_left
                       (fun acc member =>
                          match fieldFor env presenceEventFields (fst member) with
                          | None => acc
                          | Some name =>
                              let '(x', e) :=
                                setPresenceEvent (fst acc) name (snd member) in
                              (x', firstError (snd acc) e)
                          end) members acc)) = None
             <-> PresenceEvent.User_ (fst acc) = None
                 /\ existsb (userMember env) members = false) as H.
  { induction members as [|m members IH]; intros acc; simpl.
    - tauto.
    - rewrite IH. unfold userMember at 2.
      destruct (fieldFor env presenceEventFields (fst m)) as [name|]; simpl.
      + assert (Hset := setPresenceEvent_user (fst acc) name (snd m)).
        destruct (setPresenceEvent (fst acc) name (snd m)) as [x' e]. simpl in *.
        rewrite Hset. destruct (String.eqb name "session_id"); simpl.
        * tauto.
        * split; [intros [[_ H] _]; discriminate H | intros [_ H]; discriminate H].
      + tauto. }
  intros x. apply (H (x, None)).
Qed.

Lemma presence_payload_user (p : PacketEvent.t) :
  hasType [JoinEventType; PartEventType] p = true ->
  (exists data u,
      GetPresenceEventPayload env p = Ok data
      /\ PresenceEvent.User_ data = Some u)
  <-> exists members,
        PacketEvent.Data p = Some (JObj members)
        /\ existsb (userMember env) members = true.
Proof.
  unfold hasType. simpl. rewrite orb_false_r. intros Htype.
  assert (Payload env p
          = Unmarshal env (PacketEvent.Data p) (PPresenceEvent PresenceEvent.zero))
    as Hpay.
  { unfold Payload.
    apply orb_prop in Htype as [H|H]; apply String.eqb_eq in H; rewrite H;
      reflexivity. }
  unfold GetPresenceEventPayload. rewrite Hpay. clear Hpay.
  destruct (PacketEvent.Data p) as [v|]; simpl.
  - destruct v; simpl;
      try (split; [intros (data & u & [= <-] & H); cbv in H; discriminate H
                  | intros (members & H & _); discriminate H]).
    assert (Hu := presence_user_allocated members PresenceEvent.zero).
      destruct (decodeMembers env presenceEventFields setPresenceEvent members
                  PresenceEvent.zero) as [x e]. simpl in *.
    split.
    + intros (data & u & [= <-] & Hsome). exists members. split; [reflexivity|].
      destruct (existsb (userMember env) members); [reflexivity|].
      rewrite (proj2 Hu (conj eq_refl eq_refl)) in Hsome. discriminate.
    + intros (members' & [= <-] & Hex).
      destruct (PresenceEvent.User_ x) as [u|] eqn:Hx.
      * now exists x, u.
      * destruct (proj1 Hu eq_refl) as [_ Hnone]. congruence.
  - split; [intros (data & u & [= <-] & H); cbv in H; discriminate H
           | intros (members & H & _); discriminate H].
Qed.

(** X12.  Which presence packets the part and join handlers survive.
    [PartEventHandler] goes on after a part-event, and
    [JoinEventHandler] after a join-event, exactly when the data is a
    JSON object with at least one member for [id], [name], [server_id]
    or [server_era]: such a member, whatever its value, makes the decoder
    allocate the embedded [User].  On every other data (no JSON, [null],
    a number, an object with only other members, the empty object) the
    handler panics. *)
Theorem presence_handlers_survive_exactly (w : World) (p : PacketEvent.t) :
  (PacketEvent.Type_ p = PartEventType ->
   ((exists w', PartEventHandler env w (Input p) = Continue w')
    <-> exists members,
          PacketEvent.Data p = Some (JObj members)
          /\ existsb (userMember env) members = true))
  /\ (PacketEvent.Type_ p = JoinEventType ->
      ((exists w', JoinEventHandler env w (Input p) = Continue w')
       <-> exists members,
             PacketEvent.Data p = Some (JObj members)
             /\ existsb (userMember env) members = true)).
Proof.
  split; intros Htype.
  - rewrite <- presence_payload_user
      by (unfold hasType; rewrite Htype; reflexivity).
    unfold PartEventHandler. rewrite Htype. simpl.
    destruct (GetPresenceEventPayload env p) as [data|msg]; simpl.
    + destruct (PresenceEvent.User_ data) as [u|] eqn:Hu; simpl.
      * split; [intros _; exists data, u; split; [reflexivity | exact Hu]
               | intros _; eexists; reflexivity].
      * split; [intros [w' H]; discriminate H
               | intros (d & u & [= <-] & H); congruence].
    + split; [intros [w' H]; discriminate H
             | intros (d & u & H & _); discriminate H].
  - rewrite <- presence_payload_user
      by (unfold hasType; rewrite Htype; reflexivity).
    unfold JoinEventHandler. rewrite Htype. simpl.
    destruct (GetPresenceEventPayload env p) as [data|msg]; simpl.
    + destruct (PresenceEvent.User_ data) as [u|] eqn:Hu; simpl.
      * split; [intros _; exists data, u; split; [reflexivity | exact Hu]|].
        intros _. destruct (String.eqb (User.Name u) ""); eexists; reflexivity.
      * split; [intros [w' H]; discriminate H
               | intros (d & u & [= <-] & H); congruence].
    + split; [intros [w' H]; discriminate H
             | intros (d & u & H & _); discriminate H].
Qed.

End PresenceBodies.

(** ** Replies of the command handlers *)

Section Replies.

Variable env : Env.

Lemma replyFirstTitle_cases (r : Room) (urls : list string) (parent : string) :
  replyFirstTitle env r urls parent = r
  \/ exists text, replyFirstTitle env r urls parent = SendText r text parent.
Proof.
  induction urls as [|url urls IH]; simpl; [now left|].
  destruct (getLinkTitle env _) as [title [err|]]; [exact IH|].
  destruct (String.eqb title ""); simpl; [exact IH|].
  right. now eexists.
Qed.

Lemma onRoom_same (w : World) : onRoom (fun _ => room w) w = w.
Proof. now destruct w. Qed.

(** X13.  The five command handlers answer in the thread of the message
    that triggered them.  Whenever [PingCommandHandler],
    [SeenCommandHandler], [LinkTitleHandler], [UptimeCommandHandler] or
    [ScritchCommandHandler] goes round its loop after a packet, it has
    either changed nothing or sent exactly one text, and that text has
    the ID of the packet's message as its parent; nothing else in the
    room is touched. *)
Theorem command_replies_are_threaded (name : handlerName) (w w' : World)
    (p : PacketEvent.t) :
  In name [PingCommand_; SeenCommand_; LinkTitle_; UptimeCommand_;
           ScritchCommand_] ->
  handlerOf env name w (Input p) = Continue w' ->
  w' = w
  \/ exists data text,
       GetMessagePayload env p = Some data
       /\ w' = onRoom (fun r => SendText r text (Message.ID data)) w.
Proof.
  intros Hname.
  assert (forall data text,
             GetMessagePayload env p = Some data ->
             Continue (onRoom (fun r => SendText r text (Message.ID data)) w)
             = Continue w' ->
             w' = w
             \/ exists data text,
                  GetMessagePayload env p = Some data
                  /\ w' = onRoom (fun r => SendText r text (Message.ID data)) w)
    as Hsent.
  { intros data text Hdata [= <-]. right. now exists data, text. }
  assert (Continue w = Continue w' ->
          w' = w
          \/ exists data text,
               GetMessagePayload env p = Some data
               /\ w' = onRoom (fun r => SendText r text (Message.ID data)) w)
    as Hsame.
  { intros [= <-]. now left. }
  simpl in Hname.
  destruct Hname as [<-|[<-|[<-|[<-|[<-|[]]]]]]; cbn [handlerOf].
  - unfold PingCommandHandler.
    destruct (String.eqb (PacketEvent.Type_ p) SendEventType); simpl; [|exact Hsame].
    destruct (GetMessagePayload env p) as [data|] eqn:Hdata; simpl; [|discriminate].
    destruct (isValidPingCommand _); [apply (Hsent data _ eq_refl) | exact Hsame].
  - unfold SeenCommandHandler.
    destruct (String.eqb (PacketEvent.Type_ p) SendEventType); simpl; [|exact Hsame].
    destruct (GetMessagePayload env p) as [data|] eqn:Hdata; simpl; [|discriminate].
    destruct (isValidSeenCommand _) as [[|]|]; simpl; [|exact Hsame|discriminate].
    match goal with
    | |- context [try w ?r _] => destruct r as [user|]; simpl; [|discriminate]
    end.
    destruct (retrieveSeen (room w) user) as [[lastSeen|] [err|]];
      try discriminate; apply (Hsent data _ eq_refl).
  - unfold LinkTitleHandler.
    destruct (String.eqb (PacketEvent.Type_ p) SendEventType); simpl; [|exact Hsame].
    destruct (GetMessagePayload env p) as [data|] eqn:Hdata; simpl; [|discriminate].
    intros [= <-].
    destruct (replyFirstTitle_cases (room w)
                (FindAllString env (Message.Content data)) (Message.ID data))
      as [Hno|[text Hyes]].
    + left. unfold onRoom. rewrite Hno. now destruct w.
    + right. exists data, text. split; [reflexivity|].
      unfold onRoom. now rewrite Hyes.
  - unfold UptimeCommandHandler.
    destruct (String.eqb (PacketEvent.Type_ p) SendEventType); simpl; [|exact Hsame].
    destruct (GetMessagePayload env p) as [data|] eqn:Hdata; simpl; [|discriminate].
    destruct (String.eqb _ "!uptime"); [apply (Hsent data _ eq_refl) | exact Hsame].
  - unfold ScritchCommandHandler.
    destruct (String.eqb (PacketEvent.Type_ p) SendEventType); simpl; [|exact Hsame].
    destruct (GetMessagePayload env p) as [data|] eqn:Hdata; simpl; [|discriminate].
    destruct (String.eqb _ "!scritch"); [apply (Hsent data _ eq_refl) | exact Hsame].
Qed.

End Replies.

(** ** Presence debounce over whole runs *)

Section Runs.

Variable env : Env.

Lemma partTimer_fired_or_not (r : Room) (user : string) :
  (partTimer r user = r /\ (user ∉ leaving r \/ user = ""))
  \/ (user ∈ leaving r /\ user <> ""
      /\ partTimer r user = clearUserLeaving (SendText r (leftText user) "") user).
Proof.
  destruct (decide (user ∈ leaving r)) as [Hin|Hout].
  - destruct (String.eqb_spec user "") as [->|Hne].
    + left. split; [apply partTimer_idle|]; now right.
    + right. split; [assumption|]. split; [assumption|]. now apply partTimer_fires.
  - left. split; [apply partTimer_idle|]; now left.
Qed.






Lemma step_never_announces_empty_left (w w' : World) (a : action) :
  step env w a = Some w' -> leaves "" w' = leaves "" w.
Proof.
  intros Hstep. destruct a as [p|p|d|t name].
  - apply PartTurn_inv in Hstep as [->|(name & _ & _ & ->)]; reflexivity.
  - apply JoinTurn_inv in Hstep as [->|(name & -> & _)]; [reflexivity|].
    unfold leaves, onRoom. cbn [room]. apply timesSent_rejoin.
  - simpl in Hstep. destruct (0 <=? d); [|discriminate].
    now injection Hstep as <-.
  - simpl in Hstep. destruct (_ && _); [|discriminate].
    injection Hstep as <-. unfold leaves. cbn [room].
    destruct (String.eqb_spec name "") as [->|Hne].
    + rewrite partTimer_idle; [reflexivity | now right].
    + now destruct (partTimer_other (room w) name "" Hne) as [-> _].
Qed.

(** X15.  The empty name is never announced as having left.  Whatever
    packets the part and join handlers receive and whichever timers
    wake, part-events for the empty name among them, the number of leave
    announcements for the empty name stays what it was. *)
Theorem empty_name_never_announced_left (trace : list action) :
  forall w w', run env w trace = Some w' -> leaves "" w' = leaves "" w.
Proof.
  induction trace as [|a trace IH]; intros w w' Hrun; simpl in Hrun.
  - now injection Hrun as <-.
  - destruct (step env w a) as [w1|] eqn:Hstep; [|discriminate].
    rewrite (IH w1 w' Hrun). exact (step_never_announces_empty_left w w1 a Hstep).
Qed.

Lemma In_removeSleeper (x y : Z * string) (l : list (Z * string)) :
  In x l -> sameSleeper y x = false -> In x (removeSleeper y l).
Proof.
  induction l as [|z l IH]; simpl; [tauto|].
  intros [->|Hin] Hxy.
  - rewrite Hxy. now left.
  - destruct (sameSleeper y z); [assumption|]. right. now apply IH.
Qed.

Lemma step_keeps_leaves_armed (w w' : World) (a : action) :
  step env w a = Some w' -> everyLeaveArmed w -> everyLeaveArmed w'.
Proof.
  intros Hstep Harmed user Hin Hne. destruct a as [p|p|d|t name].
  - apply PartTurn_inv in Hstep as [->|(name & _ & _ & ->)]; [now apply Harmed|].
    unfold spawn, onRoom in *. cbn [room sleeping leaving setUserLeaving] in *.
    destruct (String.eqb_spec name user) as [->|Hother].
    + eexists. apply in_or_app. right. now left.
    + destruct (Harmed user) as [t Ht]; [set_solver | assumption|].
      exists t. apply in_or_app. now left.
  - apply JoinTurn_inv in Hstep as [->|(name & -> & _)]; [now apply Harmed|].
    unfold onRoom in *. cbn [room sleeping] in *. rewrite leaving_rejoin in Hin.
    apply Harmed; [set_solver | assumption].
  - simpl in Hstep. destruct (0 <=? d); [|discriminate].
    injection Hstep as <-. now apply Harmed.
  - simpl in Hstep. destruct (_ && _); [|discriminate].
    injection Hstep as <-. cbn [room sleeping] in *.
    assert (name <> user) as Hother.
    { intros ->.
      destruct (partTimer_fired_or_not (room w) user)
        as [[Hidle [Hout|Hempty]]|(_ & _ & Hfired)].
      - rewrite Hidle in Hin. contradiction.
      - contradiction.
      - rewrite Hfired in Hin. simpl in Hin. set_solver. }
    apply (proj2 (partTimer_other (room w) name user Hother)) in Hin.
    destruct (Harmed user Hin Hne) as [t' Ht'].
    exists t'. apply In_removeSleeper; [assumption|].
    unfold sameSleeper. simpl.
    apply String.eqb_neq in Hother. rewrite Hother. apply andb_false_r.
Qed.

(** X16.  No pending leave without a timer.  If every user with a
    non-empty name who is pending leave has a [partTimer] asleep, this
    is still so after any run of the part handler, the join handler and
    the timers; it holds in a fresh room, hence in every world reached
    from one. *)
Theorem pending_leave_always_has_timer (trace : list action) :
  forall w w',
    everyLeaveArmed w -> run env w trace = Some w' -> everyLeaveArmed w'.
Proof.
  induction trace as [|a trace IH]; intros w w' Harmed Hrun; simpl in Hrun.
  - now injection Hrun as <-.
  - destruct (step env w a) as [w1|] eqn:Hstep; [|discriminate].
    apply (IH w1 w'); [|assumption].
    now apply (step_keeps_leaves_armed w w1 a).
Qed.

End Runs.

(** ** Building and reading packets *)

Section RoundTrip.

Variable env : Env.
Variable enc : Encoder.

Lemma Payload_template (id type err : string) (d : RawMessage) (v : payload) :
  allocated type = Some (dynamicType v) ->
  Payload env (PacketEvent.mk id type d err)
  = Unmarshal env d
      match v with
      | PPingEvent _ => PPingEvent PingEvent.zero
      | PMessage _ => PMessage Message.zero
      | PSendCommand _ => PSendCommand SendCommand.zero
      | PNickEvent _ => PNickEvent NickEvent.zero
      | PPresenceEvent _ => PPresenceEvent PresenceEvent.zero
      | PPingReply _ => PPingReply PingReply.zero
      | PAuthCommand _ => PAuthCommand AuthCommand.zero
      | PBounceEvent _ => PBounceEvent BounceEvent.zero
      | other => other
      end.
Proof.
  unfold allocated, Payload. simpl.
  repeat match goal with
         | |- context [String.eqb type ?b] => destruct (String.eqb type b); simpl
         end;
    intros [= H]; destruct v; try discriminate H; reflexivity.
Qed.

Lemma storeStrings_quoted (options : list string) :
  forallb (okString enc) options = true ->
  forall acc : list string,
    fold_left
      (fun acc item =>
         let '(s, e) := storeString "" item in
         (fst acc ++ [s], firstError (snd acc) e))
      (map (quote enc) options) (acc, None)
    = (acc ++ options, None).
Proof.
  induction options as [|s options IH]; intros Hok acc; simpl.
  - now rewrite app_nil_r.
  - simpl in Hok. apply andb_prop in Hok as [Hs Hok].
    apply String.eqb_eq in Hs. rewrite Hs, (IH Hok).
    now rewrite <- app_assoc.
Qed.

Lemma storeStrings_Marshal (options old : list string) :
  forallb (okString enc) options = true ->
  storeStrings old (JArr (map (quote enc) options)) = (options, None).
Proof. intros Hok. exact (storeStrings_quoted options Hok []). Qed.

Ltac use_ok :=
  repeat match goal with
         | H : _ && _ = true |- _ => apply andb_prop in H as [? ?]
         | H : okUser enc _ = true |- _ => unfold okUser in H; simpl in H
         | H : okString enc _ = true |- _ =>
             unfold okString in H; apply String.eqb_eq in H
         end.

Ltac omit_cases :=
  repeat match goal with
         | |- context [String.eqb ?s ""] =>
             let E := fresh "E" in
             destruct (String.eqb_spec s "") as [E|E];
             [try rewrite E in *; try subst s|]
         | |- context [Z.eqb ?z 0] =>
             let E := fresh "E" in
             destruct (Z.eqb_spec z 0) as [E|E];
             [try rewrite E in *; try subst z|]
         end.

Ltac decode :=
  repeat (progress
            (unfold decodeMembers, decodeStruct, quote, setPingEvent, setMessage,
               setUser, setSendCommand, setNickEvent, setPresenceEvent,
               setPingReply, setAuthCommand, setBounceEvent;
             simpl;
             repeat match goal with
                    | H : inInt64 ?z = true |- context [inInt64 ?z] => rewrite H
                    | H : toValidUTF8 enc ?s = ?s
                      |- context [toValidUTF8 enc ?s] => rewrite H
                    | H : forall old, storeStrings old ?a = _
                      |- context [storeStrings _ ?a] => rewrite H
                    end)).

Lemma Unmarshal_Marshal (v : payload) :
  wellEncoded enc v = true ->
  exists data,
    Marshal enc v = inr data
    /\ Unmarshal env (Some data)
         match v with
         | PPingEvent _ => PPingEvent PingEvent.zero
         | PMessage _ => PMessage Message.zero
         | PSendCommand _ => PSendCommand SendCommand.zero
         | PNickEvent _ => PNickEvent NickEvent.zero
         | PPresenceEvent _ => PPresenceEvent PresenceEvent.zero
         | PPingReply _ => PPingReply PingReply.zero
         | PAuthCommand _ => PAuthCommand AuthCommand.zero
         | PBounceEvent _ => PBounceEvent BounceEvent.zero
         | other => other
         end
       = (v, None).
Proof.
  intros Hok. destruct v as [x|x|x|x|x|x|x|x|r|]; simpl in Hok; try discriminate;
    (eexists; split; [reflexivity|]).
  - destruct x. simpl in *. use_ok. decode. reflexivity.
  - destruct x as [id parent prev time [uid uname usid usera] content key edited
                     deleted].
    simpl in *. use_ok. unfold omitString, omitInt. omit_cases; decode; reflexivity.
  - destruct x. simpl in *. use_ok. decode. reflexivity.
  - destruct x. simpl in *. use_ok. decode. reflexivity.
  - destruct x as [[[uid uname usid usera]|] session]; simpl in *; use_ok;
      decode; reflexivity.
  - destruct x. simpl in *. unfold omitInt. omit_cases; decode; reflexivity.
  - destruct x. simpl in *. use_ok. unfold omitString. omit_cases; decode; reflexivity.
  - destruct x as [reason options agent ip]. simpl in Hok. use_ok.
    destruct options as [|o options].
    + simpl. unfold omitString. omit_cases; decode; reflexivity.
    + cbn [Marshal BounceEvent.Reason BounceEvent.AuthOptions BounceEvent.AgentID
             BounceEvent.IP].
      match goal with
      | H : forallb (okString enc) (o :: options) = true |- _ =>
          assert (Harr := fun old => storeStrings_Marshal (o :: options) old H)
      end.
      set (arr := JArr (map (quote enc) (o :: options))) in *. clearbody arr.
      unfold omitString. omit_cases; decode; reflexivity.
Qed.

(** X17.  Packets made by [MakePacket] read back.  For a payload struct
    whose strings are valid UTF-8, [MakePacket] does not fail, the packet
    carries the given ID and type and an empty error, and when the type
    is one for which [Payload] allocates that struct, [Payload] of the
    packet returns the struct that went in, with a nil error: no field is
    lost to [omitempty], to the embedded [*User] or to the field names. *)
Theorem Payload_of_MakePacket (ID : string) (type : PacketType) (v : payload) :
  wellEncoded enc v = true ->
  allocated type = Some (dynamicType v) ->
  exists p,
    MakePacket enc ID type v = inr p
    /\ PacketEvent.ID p = ID
    /\ PacketEvent.Type_ p = type
    /\ PacketEvent.Error p = ""
    /\ Payload env p = (v, None).
Proof.
  intros Hok Halloc.
  destruct (Unmarshal_Marshal v Hok) as (data & Hdata & Hback).
  unfold MakePacket. rewrite Hdata. eexists. split; [reflexivity|].
  repeat split. simpl. now rewrite (Payload_template ID type "" (Some data) v Halloc).
Qed.

End RoundTrip.

(** ** The join handler on a user it does not ignore *)

(** X18.  What [JoinEventHandler] does for a join-event of a user with a
    non-empty name, and for a nick-event from the empty name to any
    name: it does not panic; it sends "joined the room" for that user
    exactly when the user was not pending leave, and nothing when the
    user was; either way the user is out of the leaving-set afterwards,
    and no timer is touched. *)
Theorem JoinEventHandler_announces_or_clears (env : Env) (user : string)
    (w : World) (j : PacketEvent.t) :
  joinFor env user (JoinTurn j) = true ->
  user <> "" \/ nickInFor env user (JoinTurn j) = true ->
  exists w',
    JoinEventHandler env w (Input j) = Continue w'
    /\ leaving (room w') = leaving (room w) ∖ {[user]}
    /\ sent (room w')
       = (if isUserLeaving (room w) user then sent (room w)
          else sent (room w) ++ [(joinedText user, "")])
    /\ clock w' = clock w
    /\ sleeping w' = sleeping w.
Proof.
  intros Hjoin Hwhich.
  assert (JoinEventHandler env w (Input j)
          = Continue (onRoom (fun r => rejoin r user) w)) as ->.
  { unfold joinFor in Hjoin.
    destruct (nickInFor env user (JoinTurn j)) eqn:Hnick.
    - simpl in Hnick. apply andb_prop in Hnick as [Htype Hname].
      apply String.eqb_eq in Htype. apply isSome_eq in Hname.
      exact (JoinEventHandler_nick env w j user Htype Hname).
    - rewrite orb_false_r in Hjoin. simpl in Hjoin.
      apply andb_prop in Hjoin as [Htype Hname].
      apply String.eqb_eq in Htype. apply isSome_eq in Hname.
      rewrite (JoinEventHandler_join env w j user Htype Hname).
      destruct Hwhich as [Hne|Hfalse]; [|discriminate].
      apply String.eqb_neq in Hne. now rewrite Hne. }
  eexists. split; [reflexivity|]. unfold onRoom. cbn [room clock sleeping].
  split; [apply leaving_rejoin|]. split; [|split; reflexivity].
  unfold rejoin. now destruct (isUserLeaving (room w) user).
Qed.

(** ** The further theorems at concrete inputs *)

Lemma SeenCommandHandler_answers_query_witness :
  SeenCommandHandler testEnv world0
    (Input (sendPacket SendEventType "!seen @carol"))
  = Continue (onRoom (fun r => SendText r "User has not been seen yet." "m1")
                world0).
Proof.
  exact (SeenCommandHandler_answers_query testEnv world0
           (sendPacket SendEventType "!seen @carol")
           (sentMessage "!seen @carol") "carol"
           eq_refl eq_refl eq_refl eq_refl eq_refl).
Defined.


Lemma extractTitleFromTree_first_text_after_title_witness :
  extractTitleFromTree testEnv 0
    ([StartTagToken "html"; TextToken "skipped"] ++ StartTagToken "title"
     :: [OtherToken; StartTagToken "b"] ++ TextToken "Example Domain"
     :: [OtherToken; TextToken "later"])
  = "Example Domain"
  /\ extractTitleFromTree testEnv 0
       ([StartTagToken "html"] ++ ErrorToken
        :: [StartTagToken "title"; TextToken "too late"])
     = "".
Proof.
  destruct (extractTitleFromTree_first_text_after_title testEnv)
    as (Hfirst & Hcut & _).
  split.
  - exact (Hfirst [StartTagToken "html"; TextToken "skipped"]
             [OtherToken; StartTagToken "b"] [OtherToken; TextToken "later"]
             "Example Domain" eq_refl eq_refl).
  - exact (Hcut [StartTagToken "html"]
             [StartTagToken "title"; TextToken "too late"] eq_refl).
Defined.

Lemma replyFirstTitle_first_usable_wins_witness :
  replyFirstTitle pageEnv emptyRoom
    (["gone.example"; "nowhere.example"] ++ "example.com" :: ["gone.example"])
    "m1"
  = SendText emptyRoom "Link title: Example Domain" "m1".
Proof.
  destruct (replyFirstTitle_first_usable_wins pageEnv emptyRoom "m1")
    as (Hfirst & _ & _).
  apply (Hfirst ["gone.example"; "nowhere.example"] ["gone.example"]
           "example.com" "Example Domain"); [reflexivity | reflexivity | discriminate].
Defined.


Lemma null_data_stops_handlers_witness :
  ScritchCommandHandler testEnv world0
    (Input (PacketEvent.mk "1" SendEventType (Some JNull) ""))
  = Crash world0 "invalid memory address or nil pointer dereference".
Proof.
  exact (null_data_stops_handlers testEnv ScritchCommand_ world0
           (PacketEvent.mk "1" SendEventType (Some JNull) "") eq_refl eq_refl).
Defined.

Lemma nick_event_announced_once_witness :
  (exists msg,
      NickChangeHandler testEnv world0 (Input (nickPacket "carol" "caroline"))
      = Crash world0 msg
      /\ JoinEventHandler testEnv world0 (Input (nickPacket "carol" "caroline"))
         = Crash world0 msg)
  \/ (exists w1 w2,
        NickChangeHandler testEnv world0 (Input (nickPacket "carol" "caroline"))
        = Continue w1
        /\ JoinEventHandler testEnv world0 (Input (nickPacket "carol" "caroline"))
           = Continue w2
        /\ (w1 = world0 \/ sent (room w2) = sent (room world0))).
Proof.
  exact (nick_event_announced_once testEnv world0 (nickPacket "carol" "caroline")
           eq_refl).
Defined.

Lemma presence_handlers_survive_exactly_witness :
  (exists w', PartEventHandler testEnv world0 (Input (partPacket "bob"))
              = Continue w')
  /\ ~ (exists w',
           PartEventHandler testEnv world0
             (Input (PacketEvent.mk "" PartEventType
                       (Some (JObj [("session_id", JStr "s1")])) ""))
           = Continue w').
Proof.
  split.
  - apply (proj1 (presence_handlers_survive_exactly testEnv world0
                    (partPacket "bob")) eq_refl).
    eexists. split; reflexivity.
  - intros Hsurvives.
    apply (proj1 (presence_handlers_survive_exactly testEnv world0
                    (PacketEvent.mk "" PartEventType
                       (Some (JObj [("session_id", JStr "s1")])) "")) eq_refl)
      in Hsurvives as (members & [= <-] & Hsome).
    discriminate Hsome.
Defined.

Lemma command_replies_are_threaded_witness :
  onRoom (fun r => SendText r "/me bruxes" "m1") world0 = world0
  \/ exists data text,
       GetMessagePayload testEnv (sendPacket SendEventType "!scritch") = Some data
       /\ onRoom (fun r => SendText r "/me bruxes" "m1") world0
          = onRoom (fun r => SendText r text (Message.ID data)) world0.
Proof.
  apply (command_replies_are_threaded testEnv ScritchCommand_ world0 _
           (sendPacket SendEventType "!scritch")).
  - simpl. tauto.
  - reflexivity.
Defined.


Lemma empty_name_never_announced_left_witness :
  exists w',
    run testEnv world0
      [PartTurn (partPacket ""); Elapse partDelay; Wake partDelay ""] = Some w'
    /\ leaves "" w' = leaves "" world0.
Proof.
  eexists. split; [reflexivity|].
  apply (empty_name_never_announced_left testEnv
           [PartTurn (partPacket ""); Elapse partDelay; Wake partDelay ""] world0).
  reflexivity.
Defined.

Lemma pending_leave_always_has_timer_witness :
  exists w',
    run testEnv world0 [PartTurn (partPacket "bob"); Elapse Minute] = Some w'
    /\ everyLeaveArmed w'.
Proof.
  eexists. split; [reflexivity|].
  apply (pending_leave_always_has_timer testEnv
           [PartTurn (partPacket "bob"); Elapse Minute] world0); [|reflexivity].
  intros user Hin. exfalso. revert Hin. apply not_elem_of_empty.
Defined.

Lemma Payload_of_MakePacket_witness :
  exists p,
    MakePacket testEncoder "7" SendType
      (PSendCommand (SendCommand.mk "hello" "m1")) = inr p
    /\ PacketEvent.ID p = "7"
    /\ PacketEvent.Type_ p = SendType
    /\ PacketEvent.Error p = ""
    /\ Payload testEnv p = (PSendCommand (SendCommand.mk "hello" "m1"), None).
Proof.
  apply (Payload_of_MakePacket testEnv testEncoder "7" SendType
           (PSendCommand (SendCommand.mk "hello" "m1"))); reflexivity.
Defined.

Lemma JoinEventHandler_announces_or_clears_witness :
  exists w',
    JoinEventHandler testEnv world0 (Input (joinPacket "alice")) = Continue w'
    /\ leaving (room w') = leaving (room world0) ∖ {["alice"]}
    /\ sent (room w')
       = (if isUserLeaving (room world0) "alice" then sent (room world0)
          else sent (room world0) ++ [(joinedText "alice", "")])
    /\ clock w' = clock world0
    /\ sleeping w' = sleeping world0.
Proof.
  apply (JoinEventHandler_announces_or_clears testEnv "alice" world0
           (joinPacket "alice")); [reflexivity|].
  left. discriminate.
Defined.
